(** * Z-IMAGE inference server (scripts/zimage_server.py)

    A shallow embedding of the FastAPI service shell: the module globals,
    the two request handlers [health] and [generate], and the startup
    paths [load_model], [init_mock], [run_self_test] and the [__main__]
    block.  The generative pipeline, PIL and the operating system are
    external: their answers come from an environment record, so that
    every handler is an executable function of the globals, the request
    and the environment. *)

From Stdlib Require Import ZArith NArith List String Ascii Bool Lia.
From Stdlib Require Import DecimalString.
From Stdlib Require Import Floats.PrimFloat.
Import ListNotations.

Open Scope string_scope.
Open Scope Z_scope.

Set Implicit Arguments.

(* ================================================================= *)
(** ** Python library functions used by the script *)

(** [str(n)] and [f"{n}"] for a Python [int]. *)
Definition str_int (n : Z) : string := NilZero.string_of_int (Z.to_int n).

(** Zero padding of a non-negative number to [width] digits, as the
    [%m], [%d], [%H], [%M], [%S] (and [%Y]) directives of [strftime]. *)
Definition zfill (width : nat) (s : string) : string :=
  string_of_list_ascii
    (repeat "0"%char (width - String.length s)) ++ s.

Definition pad (width : nat) (n : N) : string :=
  zfill width (str_int (Z.of_N n)).

Module datetime.

(** The fields of a [datetime.datetime] that [strftime] reads here. *)
Record t := mk {
    year : N; month : N; day : N;
    hour : N; minute : N; second : N
  }.

(** The ranges of a Python [datetime] from year 1000 on (the wall
      clock of a running server). *)
Definition valid (d : t) : bool :=
    ((1000 <=? year d) && (year d <=? 9999) &&
     (1 <=? month d) && (month d <=? 12) &&
     (1 <=? day d) && (day d <=? 31) &&
     (hour d <=? 23) && (minute d <=? 59) && (second d <=? 59))%N.

(** [d.strftime("%Y%m%d_%H%M%S")]. *)
Definition strftime (d : t) : string :=
    pad 4 (year d) ++ pad 2 (month d) ++ pad 2 (day d) ++ "_" ++
    pad 2 (hour d) ++ pad 2 (minute d) ++ pad 2 (second d).

End datetime.

Definition is_digit (c : ascii) : bool :=
  let n := N_of_ascii c in ((48 <=? n) && (n <=? 57))%N.

(** The shape [YYYYMMDD_HHMMSS]: eight digits, an underscore, six digits. *)
Definition timestamp_shape (s : string) : bool :=
  match list_ascii_of_string s with
  | [y1; y2; y3; y4; m1; m2; d1; d2; u; h1; h2; n1; n2; s1; s2] =>
      forallb is_digit [y1; y2; y3; y4; m1; m2; d1; d2] &&
      Ascii.eqb u "_"%char &&
      forallb is_digit [h1; h2; n1; n2; s1; s2]
  | _ => false
  end.

Module posixpath.

Definition sep : ascii := "/"%char.

Definition startswith_sep (s : string) : bool :=
    match s with
    | String c _ => Ascii.eqb c sep
    | EmptyString => false
    end.

Fixpoint endswith_sep (s : string) : bool :=
    match s with
    | EmptyString => false
    | String c EmptyString => Ascii.eqb c sep
    | String _ rest => endswith_sep rest
    end.

(** [os.path.join(a, b)] on a POSIX system. *)
Definition join (a b : string) : string :=
    if startswith_sep b then b
    else if (String.length a =? 0)%nat || endswith_sep a then a ++ b
    else a ++ String sep b.

End posixpath.

Module base64.

Definition alphabet : list ascii :=
    list_ascii_of_string
      "ABCDEFGHIJKLMNOPQRSTUVWXYZabcdefghijklmnopqrstuvwxyz0123456789+/".

Definition digit (n : N) : ascii :=
    nth (N.to_nat (N.land n 63)) alphabet "="%char.

(** [base64.b64encode(bs).decode("utf-8")]: three bytes become four
      characters of the alphabet, the tail is padded with [=]. *)
Fixpoint b64encode (bs : list Byte.byte) : string :=
    match bs with
    | [] => ""
    | [a] =>
        let n := N.shiftl (Byte.to_N a) 16 in
        String (digit (N.shiftr n 18)) (String (digit (N.shiftr n 12)) "==")
    | [a; b] =>
        let n := N.lor (N.shiftl (Byte.to_N a) 16) (N.shiftl (Byte.to_N b) 8) in
        String (digit (N.shiftr n 18)) (String (digit (N.shiftr n 12))
          (String (digit (N.shiftr n 6)) "="))
    | a :: b :: c :: rest =>
        let n := N.lor (N.lor (N.shiftl (Byte.to_N a) 16)
                              (N.shiftl (Byte.to_N b) 8)) (Byte.to_N c) in
        String (digit (N.shiftr n 18)) (String (digit (N.shiftr n 12))
          (String (digit (N.shiftr n 6)) (String (digit n)
            (b64encode rest))))
    end.

End base64.

(* ================================================================= *)
(** ** Python values, exceptions and outcomes *)

(** A [PIL.Image.Image]: mode, [size = (width, height)] and pixels. *)
Record Image := {
  im_mode : string;
  im_size : Z * Z;
  im_data : list (Z * Z * Z)
}.

(** [Image.new(mode, size, color=color)]. *)
Definition Image_new (mode : string) (size : Z * Z) (color : Z * Z * Z) : Image :=
  {| im_mode := mode; im_size := size;
     im_data := repeat color (Z.to_nat (fst size * snd size)) |}.

(** What the pipeline hands back as [result.images[0]]: Python is
    dynamically typed, so it need not be a PIL image. *)
Inductive PyObj :=
| PILImage (im : Image)
| OtherObject (repr : string).

(** Raised objects.  [HTTPException] and [PyException] are instances of
    [Exception]; [SystemExit] and [PyBaseException] (KeyboardInterrupt,
    GeneratorExit, ...) derive from [BaseException] only. *)
Inductive PyExc :=
| HTTPException (status_code : Z) (detail : string)
| PyException (cls msg : string)
| SystemExit (code : Z)
| PyBaseException (cls msg : string).

(** [isinstance(e, Exception)], the test of [except Exception]. *)
Definition isinstance_Exception (e : PyExc) : bool :=
  match e with
  | HTTPException _ _ | PyException _ _ => true
  | SystemExit _ | PyBaseException _ _ => false
  end.

(** [str(e)]; an [HTTPException] prints as Starlette renders it. *)
Definition str_exc (e : PyExc) : string :=
  match e with
  | HTTPException c d => str_int c ++ ": " ++ d
  | PyException _ m => m
  | SystemExit c => str_int c
  | PyBaseException _ m => m
  end.

Inductive Outcome (A : Type) :=
| Return (a : A)
| Raise (e : PyExc).

Arguments Return {A} a.
Arguments Raise {A} e.

(* ================================================================= *)
(** ** Data model of the script *)

(** The handle of a loaded [ZImagePipeline]. *)
Record Pipeline := {
  model_id : string;
  device : string
}.

(** The module globals of lines 43-47. *)
Record Globals := {
  pipe : option Pipeline;
  mock_mode : bool;
  mock_image_b64 : string;
  mock_delay : float;
  output_dir : string
}.

(** The module as imported, before the [__main__] block runs. *)
Definition initial_globals : Globals :=
  {| pipe := None; mock_mode := false; mock_image_b64 := "";
     mock_delay := 0%float; output_dir := "" |}.

Definition set_pipe (v : option Pipeline) (g : Globals) : Globals :=
  {| pipe := v; mock_mode := mock_mode g;
     mock_image_b64 := mock_image_b64 g; mock_delay := mock_delay g;
     output_dir := output_dir g |}.

Definition set_mock_mode (v : bool) (g : Globals) : Globals :=
  {| pipe := pipe g; mock_mode := v;
     mock_image_b64 := mock_image_b64 g; mock_delay := mock_delay g;
     output_dir := output_dir g |}.

Definition set_mock_image_b64 (v : string) (g : Globals) : Globals :=
  {| pipe := pipe g; mock_mode := mock_mode g;
     mock_image_b64 := v; mock_delay := mock_delay g;
     output_dir := output_dir g |}.

Definition set_mock_delay (v : float) (g : Globals) : Globals :=
  {| pipe := pipe g; mock_mode := mock_mode g;
     mock_image_b64 := mock_image_b64 g; mock_delay := v;
     output_dir := output_dir g |}.

Definition set_output_dir (v : string) (g : Globals) : Globals :=
  {| pipe := pipe g; mock_mode := mock_mode g;
     mock_image_b64 := mock_image_b64 g; mock_delay := mock_delay g;
     output_dir := v |}.

Record GenerateRequest := {
  prompt : string;
  width : Z;
  height : Z;
  steps : Z;
  guidance_scale : float
}.

(** [GenerateRequest(prompt=..., ...)]: a keyword that is left out is
    [None] here and takes the default of the class body; [prompt] has no
    default, so a body without it is rejected by the framework. *)
Definition GenerateRequest_init
    (prompt_ : option string) (width_ height_ steps_ : option Z)
    (guidance_scale_ : option float) : option GenerateRequest :=
  match prompt_ with
  | None => None
  | Some p =>
      Some {| prompt := p;
              width := match width_ with Some w => w | None => 1024 end;
              height := match height_ with Some h => h | None => 1024 end;
              steps := match steps_ with Some s => s | None => 28 end;
              guidance_scale :=
                match guidance_scale_ with Some g => g | None => 4.0%float end |}
  end.

Record GenerateResponse := {
  image : string;
  mime_type : string;
  file_path : string
}.

(** [GenerateResponse(image=..., ...)] with the defaults of lines 60-61. *)
Definition GenerateResponse_init
    (image_ : string) (mime_type_ file_path_ : option string) : GenerateResponse :=
  {| image := image_;
     mime_type := match mime_type_ with Some m => m | None => "image/png" end;
     file_path := match file_path_ with Some f => f | None => "" end |}.

(** The values of the dict that [health] returns. *)
Inductive JSON :=
| JStr (s : string)
| JBool (b : bool).

Record LogRecord := {
  levelname : string;
  message : string
}.

(* ================================================================= *)
(** ** The process: globals, outside world, and the handler monad *)

(** [files] are the images saved with [img.save(path)] and [dirs] the
    directories that the script's calls of [os.makedirs] created, both
    newest first.
    [assigned] is a ghost history: the value of the globals before each
    assignment to one of them, newest first. *)
Record Proc := {
  globals : Globals;
  files : list (string * PyObj);
  dirs : list string;
  log : list LogRecord;
  sleeps : list float;
  assigned : list Globals
}.

Definition boot : Proc :=
  {| globals := initial_globals; files := []; dirs := []; log := [];
     sleeps := []; assigned := [] |}.

Definition M (A : Type) : Type := Proc -> Outcome A * Proc.

Definition ret {A} (a : A) : M A := fun s => (Return a, s).

Definition bind {A B} (m : M A) (k : A -> M B) : M B :=
  fun s =>
    match m s with
    | (Return a, s') => k a s'
    | (Raise e, s') => (Raise e, s')
    end.

Notation "x <- c1 ;; c2" := (bind c1 (fun x => c2))
  (at level 61, c1 at next level, right associativity).
Notation "c1 ;; c2" := (bind c1 (fun _ => c2))
  (at level 61, right associativity).

Definition raise {A} (e : PyExc) : M A := fun s => (Raise e, s).

(** [try: body / except Exception as e: handler(e)]. *)
Definition try_except {A} (body : M A) (handler : PyExc -> M A) : M A :=
  fun s =>
    match body s with
    | (Return a, s') => (Return a, s')
    | (Raise e, s') =>
        if isinstance_Exception e then handler e s' else (Raise e, s')
    end.

(** Reading a module global. *)
Definition gets {A} (f : Globals -> A) : M A :=
  fun s => (Return (f (globals s)), s).

(** Assigning a module global ([global x] then [x = v]). *)
Definition assign (f : Globals -> Globals) : M unit :=
  fun s =>
    (Return tt,
     {| globals := f (globals s); files := files s; dirs := dirs s;
        log := log s; sleeps := sleeps s;
        assigned := globals s :: assigned s |}).

(** The answer of an external call. *)
Definition extern {A} (r : Outcome A) : M A := fun s => (r, s).

Definition emit (level msg : string) : M unit :=
  fun s =>
    (Return tt,
     {| globals := globals s; files := files s; dirs := dirs s;
        log := {| levelname := level; message := msg |} :: log s;
        sleeps := sleeps s; assigned := assigned s |}).

Definition logger_info (msg : string) : M unit := emit "INFO" msg.
Definition logger_error (msg : string) : M unit := emit "ERROR" msg.
(** [logger.exception(msg)] logs at level ERROR (with the traceback). *)
Definition logger_exception (msg : string) : M unit := emit "ERROR" msg.

(** [sys.exit(code)]. *)
Definition sys_exit {A} (code : Z) : M A := raise (SystemExit code).

(** [xs[0]]. *)
Definition getitem0 {A} (xs : list A) : M A :=
  match xs with
  | x :: _ => ret x
  | [] => raise (PyException "IndexError" "list index out of range")
  end.

(** Python truthiness of a [str]. *)
Definition truthy (s : string) : bool :=
  match s with
  | EmptyString => false
  | String _ _ => true
  end.

(** What the outside answers during one request (or one self-test).
    [call_pipe] is [pipe(prompt, width=, height=, num_inference_steps=,
    guidance_scale=, generator=)] followed by [.images]; the last
    argument is the seed of the generator, when one is passed.
    [save_png] is [img.save(buf, format="PNG")] with [buf.getvalue()],
    [save_file] is [img.save(path)], [now] is [datetime.now()],
    [time_time n] the n-th reading of [time.time()] and [format_1f] the
    rendering of a float by [:.1f].  [sleep_error d] is the exception
    that [time.sleep(d)] raises, as class name and message, when it
    raises one: [OverflowError] for a delay too large for the platform
    clock (infinity included), [ValueError] for a negative or NaN one.
    [import_PIL] is [from PIL import Image]. *)
Record Env := {
  call_pipe : Pipeline -> string -> Z -> Z -> Z -> float -> option Z ->
              Outcome (list PyObj);
  save_png : PyObj -> Outcome (list Byte.byte);
  save_file : PyObj -> string -> Outcome unit;
  now : datetime.t;
  time_time : nat -> float;
  format_1f : float -> string;
  sleep_error : float -> option (string * string);
  import_PIL : Outcome unit
}.

(** [time.sleep(d)]: the delay is slept, unless the call raises. *)
Definition time_sleep (env : Env) (d : float) : M unit :=
  fun s =>
    match sleep_error env d with
    | None =>
        (Return tt,
         {| globals := globals s; files := files s; dirs := dirs s;
            log := log s; sleeps := d :: sleeps s; assigned := assigned s |})
    | Some (cls, msg) => (Raise (PyException cls msg), s)
    end.

(** [img.save(path)]: on success the file exists afterwards. *)
Definition img_save (env : Env) (img : PyObj) (path : string) : M unit :=
  fun s =>
    match save_file env img path with
    | Return _ =>
        (Return tt,
         {| globals := globals s; files := (path, img) :: files s;
            dirs := dirs s; log := log s; sleeps := sleeps s;
            assigned := assigned s |})
    | Raise e => (Raise e, s)
    end.

(** What the host answers during startup: torch, diffusers, the file
    system.  [os_makedirs path] is [os.makedirs(path, exist_ok=True)]:
    it answers with the directories the call created, the missing
    parents and the leaf, none when the directory exists already. *)
Record Host := {
  from_pretrained : string -> Outcome Pipeline;
  cuda_is_available : bool;
  cuda_get_device_name : Outcome string;
  has_hip_or_rocm : bool;
  rocm_is_available : Outcome bool;
  rocm_get_device_name : Outcome string;
  pipe_to : Pipeline -> string -> Outcome Pipeline;
  enable_model_cpu_offload : Pipeline -> Outcome unit;
  os_makedirs : string -> Outcome (list string);
  host_time : nat -> float;
  host_format_1f : float -> string
}.

Definition makedirs (host : Host) (path : string) : M unit :=
  fun s =>
    match os_makedirs host path with
    | Return created =>
        (Return tt,
         {| globals := globals s; files := files s;
            dirs := created ++ dirs s; log := log s; sleeps := sleeps s;
            assigned := assigned s |})
    | Raise e => (Raise e, s)
    end.

(* ================================================================= *)
(** ** Request handlers *)

(** [GET /health], lines 64-70. *)
Definition health : M (list (string * JSON)) :=
  p <- gets pipe ;;
  m <- gets mock_mode ;;
  ret [("status", JStr "ok");
       ("model_loaded", JBool (match p with Some _ => true | None => false end));
       ("mock", JBool m)].

(** The name under which [generate] saves an image, line 102. *)
Definition image_filename (ts : string) (req : GenerateRequest) : string :=
  ts ++ "_" ++ str_int (width req) ++ "x" ++ str_int (height req) ++ ".png".

(** [POST /generate], lines 73-111. *)
Definition generate (env : Env) (req : GenerateRequest) : M GenerateResponse :=
  mm <- gets mock_mode ;;
  if mm then
    d <- gets mock_delay ;;
    (if PrimFloat.ltb 0%float d then time_sleep env d else ret tt) ;;
    b <- gets mock_image_b64 ;;
    ret (GenerateResponse_init b (Some "image/png") None)
  else
    p <- gets pipe ;;
    match p with
    | None => raise (HTTPException 503 "Model not loaded")
    | Some p =>
        try_except
          (let t0 := time_time env 0 in
           result <- extern (call_pipe env p (prompt req) (width req)
                               (height req) (steps req) (guidance_scale req)
                               None) ;;
           let elapsed := PrimFloat.sub (time_time env 1) t0 in
           img <- getitem0 result ;;
           png <- extern (save_png env img) ;;
           let b64 := base64.b64encode png in
           od <- gets output_dir ;;
           saved_path <-
             (if truthy od then
                let ts := datetime.strftime (now env) in
                let filename := image_filename ts req in
                let saved_path := posixpath.join od filename in
                img_save env img saved_path ;;
                logger_info ("Image saved: " ++ saved_path) ;;
                ret saved_path
              else ret "") ;;
           logger_info ("Generated " ++ str_int (width req) ++ "x" ++
                        str_int (height req) ++ " in " ++
                        format_1f env elapsed ++ "s (" ++
                        str_int (steps req) ++ " steps)") ;;
           ret (GenerateResponse_init b64 (Some "image/png") (Some saved_path)))
          (fun e =>
             logger_exception "Generation failed" ;;
             raise (HTTPException 500 (str_exc e)))
    end.

(* ================================================================= *)
(** ** Startup *)

(** [_detect_device], lines 114-131. *)
Definition _detect_device (host : Host) : M string :=
  if cuda_is_available host then
    name <- extern (cuda_get_device_name host) ;;
    logger_info ("Using CUDA: " ++ name) ;;
    ret "cuda"
  else
    r <- (if has_hip_or_rocm host then
            try_except
              (a <- extern (rocm_is_available host) ;;
               if (a : bool) then
                 name <- extern (rocm_get_device_name host) ;;
                 logger_info ("Using ROCm: " ++ name) ;;
                 ret (Some "cuda")
               else ret None)
              (fun _ => ret None)
          else ret None) ;;
    match r with
    | Some d => ret d
    | None => logger_info "Using CPU (slow)" ;; ret "cpu"
    end.

(** [load_model], lines 134-153. *)
Definition load_model (host : Host) (model : string) : M unit :=
  let t0 := host_time host 0 in
  logger_info ("Loading model: " ++ model) ;;
  p <- extern (from_pretrained host model) ;;
  assign (set_pipe (Some p)) ;;
  dev <- _detect_device host ;;
  (if negb (String.eqb dev "cpu") then
     cur <- gets pipe ;;
     match cur with
     | Some q =>
         q' <- extern (pipe_to host q dev) ;;
         assign (set_pipe (Some q'))
     | None =>
         raise (PyException "AttributeError"
                  "'NoneType' object has no attribute 'to'")
     end
   else
     cur <- gets pipe ;;
     match cur with
     | Some q => extern (enable_model_cpu_offload host q)
     | None =>
         raise (PyException "AttributeError"
                  "'NoneType' object has no attribute 'enable_model_cpu_offload'")
     end) ;;
  let elapsed := PrimFloat.sub (host_time host 1) t0 in
  logger_info ("Model loaded in " ++ host_format_1f host elapsed ++ "s").

(** [init_mock], lines 156-166.  The import of line 159 comes before
    the first assignment, so it is a step of its own. *)
Definition init_mock (env : Env) : M unit :=
  extern (import_PIL env) ;;
  assign (set_mock_mode true) ;;
  let img := PILImage (Image_new "RGB" (64, 64) (100, 149, 237)) in
  png <- extern (save_png env img) ;;
  assign (set_mock_image_b64 (base64.b64encode png)) ;;
  logger_info "Mock mode initialized (64x64 test image)".

(** [isinstance(img, Image.Image)] followed by the size test of
    lines 193-194. *)
Definition is_pil_512 (img : PyObj) : bool :=
  match img with
  | PILImage im => (fst (im_size im) =? 512) && (snd (im_size im) =? 512)
  | OtherObject _ => false
  end.

(** [run_self_test], lines 169-201. *)
Definition run_self_test (host : Host) (env : Env) (model : string) : M unit :=
  load_model host model ;;
  logger_info "Running self-test: generating test image..." ;;
  cur <- gets pipe ;;
  result <-
    match cur with
    | Some p =>
        extern (call_pipe env p "a red circle on a white background"
                  512 512 28 4.0%float (Some 42))
    | None =>
        raise (PyException "TypeError" "'NoneType' object is not callable")
    end ;;
  img <- getitem0 result ;;
  match img with
  | OtherObject _ =>
      logger_error "Self-test FAILED: output is not a PIL Image" ;;
      sys_exit 1
  | PILImage im =>
      let '(w, h) := im_size im in
      if negb (w =? 512) || negb (h =? 512) then
        logger_error ("Self-test FAILED: expected 512x512, got " ++
                      str_int w ++ "x" ++ str_int h) ;;
        sys_exit 1
      else
        let out_path := "scripts/test_output.png" in
        img_save env img out_path ;;
        logger_info ("Self-test PASSED: " ++ str_int w ++ "x" ++ str_int h ++
                     " image in " ++
                     format_1f env (PrimFloat.sub (time_time env 1)
                                                  (time_time env 0)) ++
                     "s -> " ++ out_path) ;;
        sys_exit 0
  end.

(** The parsed command line. *)
Record Args := {
  arg_port : Z;
  arg_host : string;
  arg_model : string;
  arg_mock : bool;
  arg_mock_delay : float;
  arg_self_test : bool;
  arg_output_dir : string
}.

(** The [__main__] block from line 248 up to the call of [uvicorn.run]. *)
Definition main (host : Host) (env : Env) (args : Args) : M unit :=
  assign (set_output_dir (arg_output_dir args)) ;;
  od <- gets output_dir ;;
  makedirs host od ;;
  logger_info ("Output directory: " ++ od) ;;
  if arg_self_test args then
    run_self_test host env (arg_model args)
  else if arg_mock args then
    assign (set_mock_delay (arg_mock_delay args)) ;;
    init_mock env
  else
    load_model host (arg_model args).

(** The exit status of the interpreter when a script ends with outcome
    [o]: [SystemExit(c)] gives [c], any other uncaught exception 1. *)
Definition exit_status {A} (o : Outcome A) : Z :=
  match o with
  | Return _ => 0
  | Raise (SystemExit c) => c
  | Raise _ => 1
  end.

(** The requests that [uvicorn.run] routes to the two handlers. *)
Inductive Request :=
| GET_health
| POST_generate (env : Env) (req : GenerateRequest).

Inductive Reply :=
| health_reply (o : Outcome (list (string * JSON)))
| generate_reply (o : Outcome GenerateResponse).

Definition route (r : Request) (s : Proc) : Reply * Proc :=
  match r with
  | GET_health => let '(o, s') := health s in (health_reply o, s')
  | POST_generate env req =>
      let '(o, s') := generate env req s in (generate_reply o, s')
  end.

(** Serving a sequence of requests, one after the other. *)
Fixpoint serve (rs : list Request) (s : Proc) : list Reply * Proc :=
  match rs with
  | [] => ([], s)
  | r :: rs' =>
      let '(a, s1) := route r s in
      let '(l, s2) := serve rs' s1 in
      (a :: l, s2)
  end.

(** The whole process: startup, then (when startup returns) the server. *)
Definition process (host : Host) (env : Env) (args : Args)
    (rs : list Request) : Proc :=
  match main host env args boot with
  | (Return _, s) => snd (serve rs s)
  | (Raise _, s) => s
  end.

(** The values the global [pipe] has held, newest first: its current
    value, then its value before each assignment to a global. *)
Definition pipe_history (s : Proc) : list (option Pipeline) :=
  map pipe (globals s :: assigned s).

(** How often a history (newest first) goes from absent to present:
    the places where a present value follows an absent one in time. *)
Fixpoint loads (h : list (option Pipeline)) : nat :=
  match h with
  | Some _ :: ((None :: _) as t) => S (loads t)
  | _ :: t => loads t
  | [] => O
  end.

(** How often a history (newest first) goes from present to absent. *)
Fixpoint unloads (h : list (option Pipeline)) : nat :=
  match h with
  | None :: ((Some _ :: _) as t) => S (unloads t)
  | _ :: t => unloads t
  | [] => O
  end.

(** The first exception raised on the generation path of [generate]
    (the pipeline call, [result.images[0]], the PNG encoding, the save
    under the output directory [od]), if there is one. *)
Definition first_failure (env : Env) (req : GenerateRequest) (od : string)
    (p : Pipeline) : option PyExc :=
  match call_pipe env p (prompt req) (width req) (height req) (steps req)
          (guidance_scale req) None with
  | Raise e => Some e
  | Return [] => Some (PyException "IndexError" "list index out of range")
  | Return (img :: _) =>
      match save_png env img with
      | Raise e => Some e
      | Return _ =>
          if truthy od then
            match save_file env img
                    (posixpath.join od
                       (image_filename (datetime.strftime (now env)) req)) with
            | Raise e => Some e
            | Return _ => None
            end
          else None
      end
  end.

(** A computation that leaves the globals alone and assigns none of
    them. *)
Definition readonly {A} (m : M A) : Prop :=
  forall s, globals (snd (m s)) = globals s /\
            assigned (snd (m s)) = assigned s.

(** On a history given newest first: once the handle is present it
    stays present. *)
Fixpoint settled (h : list (option Pipeline)) : bool :=
  match h with
  | [] => true
  | Some _ :: t => settled t
  | None :: t => forallb (fun v => match v with None => true | Some _ => false end) t
  end.

Definition inv (s : Proc) : Prop :=
  settled (pipe_history s) = true.

Definition keeps {A} (m : M A) : Prop :=
  forall s, inv s -> inv (snd (m s)).

(* ================================================================= *)
(** ** Concrete environments *)

(** [time.sleep] of CPython on a 64-bit clock: the delay is converted
    to nanoseconds in a signed 64-bit integer. *)
Definition py_sleep_error (d : float) : option (string * string) :=
  if negb (PrimFloat.eqb d d) then
    Some ("ValueError", "Invalid value NaN (not a number)")
  else if PrimFloat.ltb d 0%float then
    Some ("ValueError", "sleep length must be non-negative")
  else if PrimFloat.leb
            (PrimFloat.div 9223372036854775808%float 1000000000%float) d then
    Some ("OverflowError", "timestamp too large to convert to C _PyTime_t")
  else None.

Definition png_signature : list Byte.byte :=
  [Byte.x89; Byte.x50; Byte.x4e; Byte.x47; Byte.x0d; Byte.x0a; Byte.x1a; Byte.x0a].

Definition noon : datetime.t := datetime.mk 2026 11 3 12 34 56.

(** A pipeline that paints the requested size, and a disk that works. *)
Definition env_ok : Env :=
  {| call_pipe := fun _ _ w h _ _ _ =>
       Return [PILImage (Image_new "RGB" (w, h) (255, 0, 0))];
     save_png := fun _ => Return png_signature;
     save_file := fun _ _ => Return tt;
     now := noon;
     time_time := fun n => match n with O => 10.0%float | _ => 12.5%float end;
     format_1f := fun _ => "1.0";
     sleep_error := py_sleep_error;
     import_PIL := Return tt |}.

(** The same pipeline, started from a directory under which the
    target directory of the save does not exist. *)
Definition env_no_dir : Env :=
  {| call_pipe := call_pipe env_ok;
     save_png := save_png env_ok;
     save_file := fun _ path =>
       Raise (PyException "FileNotFoundError"
                ("[Errno 2] No such file or directory: '" ++ path ++ "'"));
     now := noon;
     time_time := time_time env_ok;
     format_1f := format_1f env_ok;
     sleep_error := py_sleep_error;
     import_PIL := Return tt |}.

(** A pipeline that runs out of memory. *)
Definition env_oom : Env :=
  {| call_pipe := fun _ _ _ _ _ _ _ =>
       Raise (PyException "OutOfMemoryError" "CUDA out of memory");
     save_png := save_png env_ok;
     save_file := save_file env_ok;
     now := noon;
     time_time := time_time env_ok;
     format_1f := format_1f env_ok;
     sleep_error := py_sleep_error;
     import_PIL := Return tt |}.

(** A pipeline in which a library calls [sys.exit(3)]. *)
Definition env_exit : Env :=
  {| call_pipe := fun _ _ _ _ _ _ _ => Raise (SystemExit 3);
     save_png := save_png env_ok;
     save_file := save_file env_ok;
     now := noon;
     time_time := time_time env_ok;
     format_1f := format_1f env_ok;
     sleep_error := py_sleep_error;
     import_PIL := Return tt |}.

(** A pipeline that paints 256x256 whatever is asked. *)
Definition env_small : Env :=
  {| call_pipe := fun _ _ _ _ _ _ _ =>
       Return [PILImage (Image_new "RGB" (256, 256) (255, 0, 0))];
     save_png := save_png env_ok;
     save_file := save_file env_ok;
     now := noon;
     time_time := time_time env_ok;
     format_1f := format_1f env_ok;
     sleep_error := py_sleep_error;
     import_PIL := Return tt |}.

Definition host_cuda : Host :=
  {| from_pretrained := fun m => Return {| model_id := m; device := "cpu" |};
     cuda_is_available := true;
     cuda_get_device_name := Return "NVIDIA";
     has_hip_or_rocm := false;
     rocm_is_available := Return false;
     rocm_get_device_name := Return "";
     pipe_to := fun p d => Return {| model_id := model_id p; device := d |};
     enable_model_cpu_offload := fun _ => Return tt;
     os_makedirs := fun path => Return [path];
     host_time := fun n => match n with O => 10.0%float | _ => 12.5%float end;
     host_format_1f := fun _ => "1.0" |}.

Definition args_normal : Args :=
  {| arg_port := 8090; arg_host := "0.0.0.0"; arg_model := "Tongyi-MAI/Z-Image";
     arg_mock := false; arg_mock_delay := 0.5%float; arg_self_test := false;
     arg_output_dir := "output/zimage" |}.

Definition args_mock : Args :=
  {| arg_port := 8090; arg_host := "0.0.0.0"; arg_model := "Tongyi-MAI/Z-Image";
     arg_mock := true; arg_mock_delay := 0.5%float; arg_self_test := false;
     arg_output_dir := "output/zimage" |}.

(** The process after [--mock] startup, and after a normal startup. *)
Definition mock_server : Proc := snd (main host_cuda env_ok args_mock boot).
Definition real_server : Proc := snd (main host_cuda env_ok args_normal boot).

Definition req_default : GenerateRequest :=
  {| prompt := "a cat"; width := 1024; height := 1024; steps := 28;
     guidance_scale := 4.0%float |}.

Definition req_small : GenerateRequest :=
  {| prompt := "a dog"; width := 8; height := 4; steps := 2;
     guidance_scale := 1.5%float |}.

(* ================================================================= *)
(** ** More hosts and environments *)

(** A ROCm build of torch whose probe fails. *)
Definition host_rocm_broken : Host :=
  {| from_pretrained := from_pretrained host_cuda;
     cuda_is_available := false;
     cuda_get_device_name := Raise (PyException "RuntimeError" "no CUDA device");
     has_hip_or_rocm := true;
     rocm_is_available := Raise (PyException "RuntimeError" "HIP error");
     rocm_get_device_name := Return "gfx1100";
     pipe_to := pipe_to host_cuda;
     enable_model_cpu_offload := fun _ => Return tt;
     os_makedirs := fun path => Return [path];
     host_time := host_time host_cuda;
     host_format_1f := host_format_1f host_cuda |}.

(** A CUDA host on which the device name cannot be read. *)
Definition host_cuda_noname : Host :=
  {| from_pretrained := from_pretrained host_cuda;
     cuda_is_available := true;
     cuda_get_device_name := Raise (PyException "RuntimeError" "CUDA error");
     has_hip_or_rocm := false;
     rocm_is_available := Return false;
     rocm_get_device_name := Return "";
     pipe_to := pipe_to host_cuda;
     enable_model_cpu_offload := fun _ => Return tt;
     os_makedirs := fun path => Return [path];
     host_time := host_time host_cuda;
     host_format_1f := host_format_1f host_cuda |}.

(** A host without accelerator. *)
Definition host_cpu : Host :=
  {| from_pretrained := from_pretrained host_cuda;
     cuda_is_available := false;
     cuda_get_device_name := Raise (PyException "RuntimeError" "no CUDA device");
     has_hip_or_rocm := false;
     rocm_is_available := Return false;
     rocm_get_device_name := Return "";
     pipe_to := pipe_to host_cuda;
     enable_model_cpu_offload := fun _ => Return tt;
     os_makedirs := fun path => Return [path];
     host_time := host_time host_cuda;
     host_format_1f := host_format_1f host_cuda |}.

(** A host on which the weights are missing. *)
Definition host_no_weights : Host :=
  {| from_pretrained := fun _ =>
       Raise (PyException "OSError" "model is not a local folder");
     cuda_is_available := true;
     cuda_get_device_name := Return "NVIDIA";
     has_hip_or_rocm := false;
     rocm_is_available := Return false;
     rocm_get_device_name := Return "";
     pipe_to := pipe_to host_cuda;
     enable_model_cpu_offload := fun _ => Return tt;
     os_makedirs := fun path => Return [path];
     host_time := host_time host_cuda;
     host_format_1f := host_format_1f host_cuda |}.

(** A CUDA host on which moving the pipeline to the device fails. *)
Definition host_move_fails : Host :=
  {| from_pretrained := from_pretrained host_cuda;
     cuda_is_available := true;
     cuda_get_device_name := Return "NVIDIA";
     has_hip_or_rocm := false;
     rocm_is_available := Return false;
     rocm_get_device_name := Return "";
     pipe_to := fun _ _ => Raise (PyException "RuntimeError" "CUDA out of memory");
     enable_model_cpu_offload := fun _ => Return tt;
     os_makedirs := fun path => Return [path];
     host_time := host_time host_cuda;
     host_format_1f := host_format_1f host_cuda |}.

(** A host on which the output directory cannot be created. *)
Definition host_no_mkdir : Host :=
  {| from_pretrained := from_pretrained host_cuda;
     cuda_is_available := true;
     cuda_get_device_name := Return "NVIDIA";
     has_hip_or_rocm := false;
     rocm_is_available := Return false;
     rocm_get_device_name := Return "";
     pipe_to := pipe_to host_cuda;
     enable_model_cpu_offload := fun _ => Return tt;
     os_makedirs := fun _ => Raise (PyException "PermissionError" "[Errno 13] Permission denied");
     host_time := host_time host_cuda;
     host_format_1f := host_format_1f host_cuda |}.

Definition args_self_test : Args :=
  {| arg_port := 8090; arg_host := "0.0.0.0"; arg_model := "Tongyi-MAI/Z-Image";
     arg_mock := false; arg_mock_delay := 0.5%float; arg_self_test := true;
     arg_output_dir := "output/zimage" |}.

Definition args_self_test_mock : Args :=
  {| arg_port := 8090; arg_host := "0.0.0.0"; arg_model := "Tongyi-MAI/Z-Image";
     arg_mock := true; arg_mock_delay := 0.5%float; arg_self_test := true;
     arg_output_dir := "output/zimage" |}.

(** A pipeline that returns no image at all. *)
Definition env_no_images : Env :=
  {| call_pipe := fun _ _ _ _ _ _ _ => Return [];
     save_png := save_png env_ok;
     save_file := save_file env_ok;
     now := noon;
     time_time := time_time env_ok;
     format_1f := format_1f env_ok;
     sleep_error := py_sleep_error;
     import_PIL := Return tt |}.

(** A pipeline that returns two images. *)
Definition env_two_images : Env :=
  {| call_pipe := fun _ _ w h _ _ _ =>
       Return [PILImage (Image_new "RGB" (w, h) (0, 0, 255));
               OtherObject "tensor"];
     save_png := save_png env_ok;
     save_file := save_file env_ok;
     now := noon;
     time_time := time_time env_ok;
     format_1f := format_1f env_ok;
     sleep_error := py_sleep_error;
     import_PIL := Return tt |}.

(** A mock server asked to wait forever. *)
Definition args_mock_inf : Args :=
  {| arg_port := 8090; arg_host := "0.0.0.0"; arg_model := "Tongyi-MAI/Z-Image";
     arg_mock := true; arg_mock_delay := PrimFloat.infinity;
     arg_self_test := false; arg_output_dir := "output/zimage" |}.

Definition mock_server_inf : Proc :=
  snd (main host_cuda env_ok args_mock_inf boot).

(** An installation without Pillow. *)
Definition env_no_pil : Env :=
  {| call_pipe := call_pipe env_ok;
     save_png := save_png env_ok;
     save_file := save_file env_ok;
     now := noon;
     time_time := time_time env_ok;
     format_1f := format_1f env_ok;
     sleep_error := py_sleep_error;
     import_PIL :=
       Raise (PyException "ModuleNotFoundError" "No module named 'PIL'") |}.

(** A host on which the parent of the output directory is missing too. *)
Definition host_fresh : Host :=
  {| from_pretrained := from_pretrained host_cuda;
     cuda_is_available := true;
     cuda_get_device_name := Return "NVIDIA";
     has_hip_or_rocm := false;
     rocm_is_available := Return false;
     rocm_get_device_name := Return "";
     pipe_to := pipe_to host_cuda;
     enable_model_cpu_offload := fun _ => Return tt;
     os_makedirs := fun _ => Return ["output/zimage"; "output"];
     host_time := host_time host_cuda;
     host_format_1f := host_format_1f host_cuda |}.

Definition req_other_prompt : GenerateRequest :=
  {| prompt := "a bird"; width := 8; height := 4; steps := 40;
     guidance_scale := 7.5%float |}.

(* ================================================================= *)
(** ** Sanity checks of the library models *)

Example str_int_1024 : str_int 1024 = "1024".
Proof. reflexivity. Qed.

Example str_int_neg : str_int (-7) = "-7".
Proof. reflexivity. Qed.

Example strftime_example :
  datetime.strftime (datetime.mk 2026 3 9 7 5 0) = "20260309_070500".
Proof. reflexivity. Qed.

Example join_plain : posixpath.join "output/zimage" "a.png" = "output/zimage/a.png".
Proof. reflexivity. Qed.

Example join_trailing : posixpath.join "out/" "a.png" = "out/a.png".
Proof. reflexivity. Qed.

Example join_empty : posixpath.join "" "a.png" = "a.png".
Proof. reflexivity. Qed.

Example b64_Man :
  base64.b64encode [Byte.x4d; Byte.x61; Byte.x6e] = "TWFu".
Proof. reflexivity. Qed.

Example b64_Ma : base64.b64encode [Byte.x4d; Byte.x61] = "TWE=".
Proof. reflexivity. Qed.

Example b64_M : base64.b64encode [Byte.x4d] = "TQ==".
Proof. reflexivity. Qed.

Example generate_real_example :
  fst (generate env_ok req_small real_server) =
  Return {| image := "iVBORw0KGgo="; mime_type := "image/png";
            file_path := "output/zimage/20261103_123456_8x4.png" |}.
Proof. vm_compute. reflexivity. Qed.

Example generate_oom_example :
  fst (generate env_oom req_small real_server) =
  Raise (HTTPException 500 "CUDA out of memory").
Proof. vm_compute. reflexivity. Qed.

Example pipe_history_example :
  pipe_history real_server =
  [Some {| model_id := "Tongyi-MAI/Z-Image"; device := "cuda" |};
   Some {| model_id := "Tongyi-MAI/Z-Image"; device := "cpu" |};
   None; None].
Proof. vm_compute. reflexivity. Qed.

(* ================================================================= *)
(** ** Laws of the monad *)

Lemma bind_Return {A B} (m : M A) (k : A -> M B) s a s' :
  m s = (Return a, s') -> bind m k s = k a s'.
Proof. intros E. unfold bind. now rewrite E. Qed.

Lemma bind_Raise {A B} (m : M A) (k : A -> M B) s e s' :
  m s = (Raise e, s') -> bind m k s = (Raise e, s').
Proof. intros E. unfold bind. now rewrite E. Qed.

Lemma try_except_Return {A} (body : M A) h s a s' :
  body s = (Return a, s') -> try_except body h s = (Return a, s').
Proof. intros E. unfold try_except. now rewrite E. Qed.

Lemma try_except_caught {A} (body : M A) h s e s' :
  body s = (Raise e, s') -> isinstance_Exception e = true ->
  try_except body h s = h e s'.
Proof. intros E I. unfold try_except. now rewrite E, I. Qed.

Lemma try_except_escapes {A} (body : M A) h s e s' :
  body s = (Raise e, s') -> isinstance_Exception e = false ->
  try_except body h s = (Raise e, s').
Proof. intros E I. unfold try_except. now rewrite E, I. Qed.

(* ================================================================= *)
(** ** Frame rules: what a computation leaves alone *)

Create HintDb frame.

Section Frame.

Context {A B : Type}.

Lemma readonly_ret (a : A) : readonly (ret a).
Proof. intros s. split; reflexivity. Qed.

Lemma readonly_raise (e : PyExc) : readonly (@raise A e).
Proof. intros s. split; reflexivity. Qed.

Lemma readonly_gets (f : Globals -> A) : readonly (gets f).
Proof. intros s. split; reflexivity. Qed.

Lemma readonly_extern (r : Outcome A) : readonly (extern r).
Proof. intros s. split; reflexivity. Qed.

Lemma readonly_getitem0 (xs : list A) : readonly (getitem0 xs).
Proof. destruct xs; intros s; split; reflexivity. Qed.

Lemma readonly_bind (m : M A) (k : A -> M B) :
  readonly m -> (forall a, readonly (k a)) -> readonly (bind m k).
Proof.
  intros Hm Hk s. unfold bind.
  destruct (Hm s) as [Hg Ha].
  destruct (m s) as [[a | e] s1]; simpl in *.
  - destruct (Hk a s1) as [Hg' Ha']. split; congruence.
  - split; assumption.
Qed.

Lemma readonly_try_except (body : M A) (h : PyExc -> M A) :
  readonly body -> (forall e, readonly (h e)) -> readonly (try_except body h).
Proof.
  intros Hb Hh s. unfold try_except.
  destruct (Hb s) as [Hg Ha].
  destruct (body s) as [[a | e] s1]; simpl in *.
  - split; assumption.
  - destruct (isinstance_Exception e); simpl.
    + destruct (Hh e s1) as [Hg' Ha']. split; congruence.
    + split; assumption.
Qed.

Lemma keeps_readonly (m : M A) : readonly m -> keeps m.
Proof.
  intros Hm s Hs. destruct (Hm s) as [Hg Ha].
  unfold inv, pipe_history in *. now rewrite Hg, Ha.
Qed.

Lemma keeps_bind (m : M A) (k : A -> M B) :
  keeps m -> (forall a, keeps (k a)) -> keeps (bind m k).
Proof.
  intros Hm Hk s Hs. unfold bind.
  specialize (Hm s Hs).
  destruct (m s) as [[a | e] s1]; simpl in *.
  - now apply Hk.
  - assumption.
Qed.

Lemma keeps_try_except (body : M A) (h : PyExc -> M A) :
  keeps body -> (forall e, keeps (h e)) -> keeps (try_except body h).
Proof.
  intros Hb Hh s Hs. unfold try_except.
  specialize (Hb s Hs).
  destruct (body s) as [[a | e] s1]; simpl in *.
  - assumption.
  - destruct (isinstance_Exception e); simpl; [now apply Hh | assumption].
Qed.

End Frame.

Lemma readonly_emit level msg : readonly (emit level msg).
Proof. intros s. split; reflexivity. Qed.

Lemma readonly_time_sleep env d : readonly (time_sleep env d).
Proof.
  intros s. unfold time_sleep.
  destruct (sleep_error env d) as [[cls msg] |]; split; reflexivity.
Qed.

Lemma readonly_img_save env img path : readonly (img_save env img path).
Proof.
  intros s. unfold img_save.
  destruct (save_file env img path); split; reflexivity.
Qed.

Lemma readonly_makedirs host path : readonly (makedirs host path).
Proof.
  intros s. unfold makedirs.
  destruct (os_makedirs host path); split; reflexivity.
Qed.

(** Loading, or re-binding, the handle keeps the history settled. *)
Lemma keeps_assign_pipe p : keeps (assign (set_pipe (Some p))).
Proof.
  intros s Hs. unfold inv, pipe_history in *. simpl in *.
  destruct (pipe (globals s)); assumption.
Qed.

(** So does an assignment to another global. *)
Lemma keeps_assign_other f :
  (forall g, pipe (f g) = pipe g) -> keeps (assign f).
Proof.
  intros Hf s Hs. unfold inv, pipe_history in *.
  cbn [assign snd globals assigned map] in *. rewrite Hf.
  destruct (pipe (globals s)); simpl in *; [assumption |].
  exact Hs.
Qed.

#[export] Hint Resolve readonly_ret readonly_raise readonly_gets
  readonly_extern readonly_getitem0 readonly_emit readonly_time_sleep
  readonly_img_save readonly_makedirs : frame.

(** Walks a computation along its binds, handlers and branches. *)
Ltac frame_step :=
  match goal with
  | |- readonly (bind _ _) => apply readonly_bind; [| intros ?]
  | |- readonly (try_except _ _) => apply readonly_try_except; [| intros ?]
  | |- keeps (bind _ _) => apply keeps_bind; [| intros ?]
  | |- keeps (try_except _ _) => apply keeps_try_except; [| intros ?]
  | |- keeps (assign (set_pipe (Some _))) => apply keeps_assign_pipe
  | |- keeps (assign _) => apply keeps_assign_other; intros ?; reflexivity
  | |- ?P (if ?b then _ else _) => destruct b
  | |- ?P (match ?x with _ => _ end) => destruct x
  | |- readonly _ => solve [auto with frame]
  | |- keeps _ => apply keeps_readonly
  end.

Ltac frame := cbv zeta; repeat frame_step.

Lemma readonly_health : readonly health.
Proof. unfold health. frame. Qed.

Lemma readonly_generate env req : readonly (generate env req).
Proof. unfold generate, logger_info, logger_exception. frame. Qed.

Lemma keeps__detect_device host : keeps (_detect_device host).
Proof.
  apply keeps_readonly. unfold _detect_device, logger_info. frame.
Qed.

Lemma keeps_load_model host model : keeps (load_model host model).
Proof.
  unfold load_model, logger_info.
  cbv zeta.
  repeat first [apply keeps__detect_device | frame_step].
Qed.

Lemma keeps_init_mock env : keeps (init_mock env).
Proof. unfold init_mock, logger_info. frame. Qed.

Lemma keeps_run_self_test host env model : keeps (run_self_test host env model).
Proof.
  unfold run_self_test, sys_exit, logger_info, logger_error.
  cbv zeta.
  repeat first [apply keeps_load_model | frame_step].
Qed.

Lemma keeps_main host env args : keeps (main host env args).
Proof.
  unfold main, logger_info.
  cbv zeta.
  repeat first [apply keeps_run_self_test | apply keeps_init_mock
               | apply keeps_load_model | frame_step].
Qed.

(** Serving requests assigns nothing. *)
Lemma serve_readonly rs s :
  globals (snd (serve rs s)) = globals s /\
  assigned (snd (serve rs s)) = assigned s.
Proof.
  revert s. induction rs as [| r rs IH]; intros s; [split; reflexivity |].
  simpl.
  assert (Hr : globals (snd (route r s)) = globals s /\
               assigned (snd (route r s)) = assigned s).
  { destruct r as [| env req]; unfold route.
    - pose proof (readonly_health s) as H.
      destruct (health s); exact H.
    - pose proof (readonly_generate env req s) as H.
      destruct (generate env req s); exact H. }
  destruct (route r s) as [a s1]. simpl in Hr.
  specialize (IH s1). destruct (serve rs s1) as [l s2]. simpl in *.
  destruct Hr, IH. split; congruence.
Qed.

Lemma all_absent_counts h :
  forallb (fun v : option Pipeline =>
             match v with None => true | Some _ => false end) h = true ->
  loads h = O /\ unloads h = O.
Proof.
  induction h as [| v t IH]; intros H; [split; reflexivity |].
  simpl in H. destruct v; [discriminate |].
  destruct (IH H) as [L U].
  destruct t as [| [p |] t']; simpl in *; try discriminate; split; assumption.
Qed.

(** A settled history has at most one load and no unload. *)
Lemma settled_counts h :
  settled h = true -> (loads h <= 1)%nat /\ unloads h = O.
Proof.
  induction h as [| v t IH]; intros H; [split; [simpl; lia | reflexivity] |].
  destruct v as [p |].
  - simpl in H. destruct (IH H) as [L U].
    destruct t as [| [q |] t'].
    + split; [simpl; lia | reflexivity].
    + split; assumption.
    + simpl in H. destruct (all_absent_counts _ H) as [L0 U0].
      assert (L1 : loads (None :: t') = O).
      { destruct t' as [| [q |] t'']; simpl in *; try discriminate; assumption. }
      assert (U1 : unloads (None :: t') = O) by exact U.
      change (loads (Some p :: None :: t')) with (S (loads (None :: t'))).
      change (unloads (Some p :: None :: t')) with (unloads (None :: t')).
      rewrite L1. split; [lia | assumption].
  - simpl in H.
    assert (H' : forallb (fun v : option Pipeline =>
                  match v with None => true | Some _ => false end)
                  (None :: t) = true) by exact H.
    destruct (all_absent_counts _ H') as [L U]. split; [lia | assumption].
Qed.

Lemma inv_boot : inv boot.
Proof. reflexivity. Qed.

(** In mock mode the handler answers from the cached image alone. *)
Lemma generate_mock env req s :
  mock_mode (globals s) = true ->
  generate env req s =
  if PrimFloat.ltb 0%float (mock_delay (globals s))
  then match sleep_error env (mock_delay (globals s)) with
       | None =>
           (Return (GenerateResponse_init (mock_image_b64 (globals s))
                      (Some "image/png") None),
            snd (time_sleep env (mock_delay (globals s)) s))
       | Some (cls, msg) => (Raise (PyException cls msg), s)
       end
  else (Return (GenerateResponse_init (mock_image_b64 (globals s))
                  (Some "image/png") None), s).
Proof.
  intros Hm. unfold generate, bind, gets. rewrite Hm.
  destruct (PrimFloat.ltb 0 (mock_delay (globals s))); [| reflexivity].
  unfold time_sleep.
  destruct (sleep_error env (mock_delay (globals s))) as [[cls msg] |];
    reflexivity.
Qed.

(** In mock mode a response, if there is one, is the cached image, and
    no file is written whatever happens. *)
Lemma generate_mock_Return env req s resp :
  mock_mode (globals s) = true ->
  fst (generate env req s) = Return resp ->
  resp = {| image := mock_image_b64 (globals s); mime_type := "image/png";
            file_path := "" |}.
Proof.
  intros Hm Hr. rewrite (generate_mock env req s Hm) in Hr.
  destruct (PrimFloat.ltb 0 (mock_delay (globals s)));
    [destruct (sleep_error env (mock_delay (globals s))) as [[cls msg] |] |];
    try discriminate Hr; injection Hr as <-; reflexivity.
Qed.

Lemma generate_mock_files env req s :
  mock_mode (globals s) = true ->
  files (snd (generate env req s)) = files s.
Proof.
  intros Hm. rewrite (generate_mock env req s Hm). unfold time_sleep.
  destruct (PrimFloat.ltb 0 (mock_delay (globals s)));
    [destruct (sleep_error env (mock_delay (globals s))) as [[cls msg] |] |];
    reflexivity.
Qed.

(** In mock mode the handler returns or passes on what [time.sleep]
    raised. *)
Lemma generate_mock_outcome env req s :
  mock_mode (globals s) = true ->
  (exists resp, fst (generate env req s) = Return resp) \/
  (exists cls msg,
     sleep_error env (mock_delay (globals s)) = Some (cls, msg) /\
     generate env req s = (Raise (PyException cls msg), s)).
Proof.
  intros Hm. rewrite (generate_mock env req s Hm).
  destruct (PrimFloat.ltb 0 (mock_delay (globals s)));
    [destruct (sleep_error env (mock_delay (globals s))) as [[cls msg] |] |].
  - right. exists cls, msg. split; reflexivity.
  - left. eexists. reflexivity.
  - left. eexists. reflexivity.
Qed.

(** In mock mode the handler returns whenever the delay can be slept. *)
Lemma generate_mock_slept env req s :
  mock_mode (globals s) = true ->
  (PrimFloat.ltb 0%float (mock_delay (globals s)) = true ->
   sleep_error env (mock_delay (globals s)) = None) ->
  fst (generate env req s) =
  Return {| image := mock_image_b64 (globals s); mime_type := "image/png";
            file_path := "" |}.
Proof.
  intros Hm Hs. rewrite (generate_mock env req s Hm).
  destruct (PrimFloat.ltb 0 (mock_delay (globals s)));
    [rewrite (Hs eq_refl) |]; reflexivity.
Qed.

Lemma generate_unloaded env req s :
  mock_mode (globals s) = false -> pipe (globals s) = None ->
  generate env req s = (Raise (HTTPException 503 "Model not loaded"), s).
Proof.
  intros Hm Hp. unfold generate, bind, gets. rewrite Hm, Hp. reflexivity.
Qed.

(* ================================================================= *)
(** ** The health handler *)

(** C6: GET /health answers exactly [{status: "ok", model_loaded: b,
    mock: m}], where [b] tells whether the pipeline handle is present
    and [m] is the mock flag; the process (globals, files, log) is the
    same afterwards; and on the module as imported, before any load, it
    reports [model_loaded: false]. *)
Theorem health_reports_state :
  (forall s,
     health s =
     (Return [("status", JStr "ok");
              ("model_loaded",
               JBool (match pipe (globals s) with
                      | Some _ => true
                      | None => false
                      end));
              ("mock", JBool (mock_mode (globals s)))],
      s)) /\
  fst (health boot) =
  Return [("status", JStr "ok"); ("model_loaded", JBool false);
          ("mock", JBool false)].
Proof. split; [intros s |]; reflexivity. Qed.

(* ================================================================= *)
(** ** Generation without a model *)




(* ================================================================= *)
(** ** Mock mode *)

(** What a successful [init_mock] has done. *)
Lemma init_mock_Return env s0 s :
  init_mock env s0 = (Return tt, s) ->
  exists png,
    save_png env (PILImage (Image_new "RGB" (64, 64) (100, 149, 237))) =
    Return png /\
    globals s =
    set_mock_image_b64 (base64.b64encode png)
      (set_mock_mode true (globals s0)) /\
    files s = files s0 /\ dirs s = dirs s0.
Proof.
  unfold init_mock. cbv zeta.
  remember (PILImage (Image_new "RGB" (64, 64) (100, 149, 237))) as img.
  unfold logger_info, bind, assign, extern, emit. cbn beta iota.
  destruct (import_PIL env) as [[] | e]; [| intros H; discriminate H].
  cbn beta iota.
  destruct (save_png env img) as [png | e]; intros H; [| discriminate H].
  injection H as <-. exists png. repeat split; reflexivity.
Qed.

(** C3, as stated, fails: a mock server started with [--mock-delay inf]
    answers no request with the placeholder, because
    [time.sleep(inf)], outside any handler, raises [OverflowError]. *)
Lemma mock_returns_placeholder_whatever_delay_fails :
  ~ (forall env req s,
       mock_mode (globals s) = true ->
       fst (generate env req s) =
       Return {| image := mock_image_b64 (globals s);
                 mime_type := "image/png"; file_path := "" |}).
Proof.
  intros H.
  specialize (H env_ok req_default mock_server_inf eq_refl).
  vm_compute in H. discriminate H.
Qed.

(** C3, amended: once [init_mock] has prepared the placeholder (the PNG
    of the 64x64 image, base64-encoded), every POST /generate for which
    the configured delay can be slept ([mock_delay] is not greater than
    0, or [time.sleep(mock_delay)] returns), whatever its prompt, width,
    height, steps and guidance scale and whatever was served before,
    returns that same image; any two such requests get the same
    answer. *)
Theorem mock_returns_fixed_placeholder :
  forall env0 s0 s,
    init_mock env0 s0 = (Return tt, s) ->
    exists png,
      save_png env0 (PILImage (Image_new "RGB" (64, 64) (100, 149, 237))) =
      Return png /\
      forall rs env req,
        (PrimFloat.ltb 0%float (mock_delay (globals s)) = true ->
         sleep_error env (mock_delay (globals s)) = None) ->
        fst (generate env req (snd (serve rs s))) =
        Return {| image := base64.b64encode png; mime_type := "image/png";
                  file_path := "" |} /\
        forall rs' env' req',
          (PrimFloat.ltb 0%float (mock_delay (globals s)) = true ->
           sleep_error env' (mock_delay (globals s)) = None) ->
          fst (generate env' req' (snd (serve rs' s))) =
          fst (generate env req (snd (serve rs s))).
Proof.
  intros env0 s0 s Hinit.
  destruct (init_mock_Return env0 s0 Hinit) as (png & Hpng & Hg & _).
  exists png. split; [exact Hpng |].
  assert (Hall : forall rs env req,
            (PrimFloat.ltb 0%float (mock_delay (globals s)) = true ->
             sleep_error env (mock_delay (globals s)) = None) ->
            fst (generate env req (snd (serve rs s))) =
            Return {| image := base64.b64encode png; mime_type := "image/png";
                      file_path := "" |}).
  { intros rs env req Hs.
    destruct (serve_readonly rs s) as [Hgs _].
    rewrite generate_mock_slept.
    - rewrite Hgs, Hg. reflexivity.
    - rewrite Hgs, Hg. reflexivity.
    - rewrite Hgs. exact Hs. }
  intros rs env req Hs. split; [now apply Hall |].
  intros rs' env' req' Hs'. now rewrite !Hall.
Qed.

Lemma mock_returns_fixed_placeholder_witness :
  fst (generate env_oom req_small
         (snd (serve [POST_generate env_ok req_default; GET_health]
                 (snd (init_mock env_ok boot))))) =
  Return {| image := "iVBORw0KGgo="; mime_type := "image/png";
            file_path := "" |}.
Proof.
  destruct (@mock_returns_fixed_placeholder env_ok boot
              (snd (init_mock env_ok boot)) eq_refl)
    as (png & Hpng & H).
  injection Hpng as <-.
  exact (proj1 (H [POST_generate env_ok req_default; GET_health]
                  env_oom req_small (fun _ => eq_refl))).
Defined.

(** C10: in mock mode every response has an empty [file_path] and the
    set of written files is unchanged, whatever the output directory and
    whether or not the request succeeds (it does whenever the delay can
    be slept); a request that does write a file was served outside mock
    mode. *)
Theorem mock_writes_no_file :
  forall env req s,
    (mock_mode (globals s) = true ->
     (forall resp,
        fst (generate env req s) = Return resp -> file_path resp = "") /\
     files (snd (generate env req s)) = files s /\
     ((PrimFloat.ltb 0%float (mock_delay (globals s)) = true ->
       sleep_error env (mock_delay (globals s)) = None) ->
      fst (generate env req s) =
      Return {| image := mock_image_b64 (globals s);
                mime_type := "image/png"; file_path := "" |})) /\
    (files (snd (generate env req s)) <> files s ->
     mock_mode (globals s) = false).
Proof.
  intros env req s. split.
  - intros Hm. split; [| split].
    + intros resp Hr.
      rewrite (generate_mock_Return env req s Hm Hr). reflexivity.
    + now apply generate_mock_files.
    + now apply generate_mock_slept.
  - intros Hw. destruct (mock_mode (globals s)) eqn:Hm; [| reflexivity].
    exfalso. apply Hw. now apply generate_mock_files.
Qed.

Lemma mock_writes_no_file_witness :
  output_dir (globals mock_server) = "output/zimage" /\
  fst (generate env_ok req_small mock_server) =
  Return {| image := "iVBORw0KGgo="; mime_type := "image/png";
            file_path := "" |} /\
  files (snd (generate env_ok req_small mock_server)) = [].
Proof.
  split; [reflexivity |].
  pose (H := proj1 (mock_writes_no_file env_ok req_small mock_server) eq_refl).
  split; [exact (proj2 (proj2 H) (fun _ => eq_refl)) | exact (proj1 (proj2 H))].
Defined.

(* ================================================================= *)
(** ** Process-wide state *)

(** C9: neither handler changes a module global (the pipeline handle,
    the mock flag, the cached mock image, the mock delay, the output
    directory); serving any sequence of requests adds nothing to the
    history of the handle; and over a whole run of the process, startup
    included, the handle goes from absent to present at most once and
    never back. *)
Theorem handlers_leave_globals :
  (forall s, globals (snd (health s)) = globals s) /\
  (forall env req s, globals (snd (generate env req s)) = globals s) /\
  (forall rs s,
     globals (snd (serve rs s)) = globals s /\
     pipe_history (snd (serve rs s)) = pipe_history s) /\
  (forall host env args rs,
     (loads (pipe_history (process host env args rs)) <= 1)%nat /\
     unloads (pipe_history (process host env args rs)) = O).
Proof.
  split; [intros s; apply readonly_health |].
  split; [intros env req s; apply readonly_generate |].
  split.
  - intros rs s. destruct (serve_readonly rs s) as [Hg Ha].
    split; [exact Hg |]. unfold pipe_history. now rewrite Hg, Ha.
  - intros host env args rs. apply settled_counts.
    unfold process.
    pose proof (@keeps_main host env args boot inv_boot) as Hinv.
    destruct (main host env args boot) as [[[] | e] s]; simpl in Hinv.
    + destruct (serve_readonly rs s) as [Hg Ha].
      unfold inv, pipe_history in *. now rewrite Hg, Ha.
    + exact Hinv.
Qed.

(* ================================================================= *)
(** ** Generation with a loaded model *)

(** Unfolds one call of [generate] outside mock mode with handle [Hp]. *)
Ltac run_generate Hm Hp :=
  unfold generate, bind, gets, try_except, extern, getitem0, img_save,
    logger_info, logger_exception, emit, ret, raise;
  cbv zeta; cbn beta iota; rewrite Hm; cbn beta iota; rewrite Hp;
  cbn beta iota.

(** What [generate] does when the generation path raises [e]. *)
Lemma generate_failure env req s p e :
  mock_mode (globals s) = false ->
  pipe (globals s) = Some p ->
  first_failure env req (output_dir (globals s)) p = Some e ->
  generate env req s =
  if isinstance_Exception e
  then (Raise (HTTPException 500 (str_exc e)),
        snd (logger_exception "Generation failed" s))
  else (Raise e, s).
Proof.
  intros Hm Hp Hf. unfold first_failure in Hf. run_generate Hm Hp.
  destruct (call_pipe env p (prompt req) (width req) (height req)
              (steps req) (guidance_scale req) None) as [[| img rest] | e0].
  - injection Hf as <-. reflexivity.
  - destruct (save_png env img) as [png | e1].
    + destruct (truthy (output_dir (globals s))); [| discriminate Hf].
      destruct (save_file env img _) as [[] | e2]; [discriminate Hf |].
      injection Hf as ->. destruct (isinstance_Exception e); reflexivity.
    + injection Hf as ->. destruct (isinstance_Exception e); reflexivity.
  - injection Hf as ->. destruct (isinstance_Exception e); reflexivity.
Qed.

(** What [generate] does when nothing on the generation path raises. *)
Lemma generate_success env req s p :
  mock_mode (globals s) = false ->
  pipe (globals s) = Some p ->
  first_failure env req (output_dir (globals s)) p = None ->
  exists img rest png,
    call_pipe env p (prompt req) (width req) (height req) (steps req)
      (guidance_scale req) None = Return (img :: rest) /\
    save_png env img = Return png /\
    let path :=
      if truthy (output_dir (globals s))
      then posixpath.join (output_dir (globals s))
             (image_filename (datetime.strftime (now env)) req)
      else "" in
    fst (generate env req s) =
    Return {| image := base64.b64encode png; mime_type := "image/png";
              file_path := path |} /\
    files (snd (generate env req s)) =
    if truthy (output_dir (globals s)) then (path, img) :: files s
    else files s.
Proof.
  intros Hm Hp Hf. unfold first_failure in Hf. run_generate Hm Hp.
  destruct (call_pipe env p (prompt req) (width req) (height req)
              (steps req) (guidance_scale req) None) as [[| img rest] | e0];
    try discriminate Hf.
  exists img, rest.
  destruct (save_png env img) as [png | e1]; [| discriminate Hf].
  exists png. split; [reflexivity |]. split; [reflexivity |].
  destruct (truthy (output_dir (globals s))).
  - destruct (save_file env img _) as [[] | e2]; [| discriminate Hf].
    split; reflexivity.
  - split; reflexivity.
Qed.

(** C4, as stated, fails: [except Exception] lets an exception outside
    the [Exception] hierarchy through; a [SystemExit] raised inside the
    pipeline leaves the handler as it is, not as a 500. *)
Lemma every_exception_becomes_500_fails :
  ~ (forall env req s p e,
       mock_mode (globals s) = false ->
       pipe (globals s) = Some p ->
       first_failure env req (output_dir (globals s)) p = Some e ->
       fst (generate env req s) = Raise (HTTPException 500 (str_exc e))).
Proof.
  intros H.
  specialize (H env_exit req_small real_server
                {| model_id := "Tongyi-MAI/Z-Image"; device := "cuda" |}
                (SystemExit 3) eq_refl eq_refl eq_refl).
  vm_compute in H. discriminate H.
Qed.

(** C4, amended: outside mock mode with the pipeline loaded, when
    generation, encoding or saving raises an instance of [Exception],
    the handler logs "Generation failed" and raises the 500 error whose
    detail is [str(e)]; an exception outside the [Exception] hierarchy
    passes through unchanged, with nothing logged; and whatever the
    handler raises is one or the other: the 500 of an [Exception], or
    the exception itself when it is none. *)
Theorem exceptions_become_500 :
  forall env req s p,
    mock_mode (globals s) = false ->
    pipe (globals s) = Some p ->
    (forall e,
       first_failure env req (output_dir (globals s)) p = Some e ->
       isinstance_Exception e = true ->
       generate env req s =
       (Raise (HTTPException 500 (str_exc e)),
        snd (logger_exception "Generation failed" s))) /\
    (forall e,
       first_failure env req (output_dir (globals s)) p = Some e ->
       isinstance_Exception e = false ->
       generate env req s = (Raise e, s)) /\
    (forall e',
       fst (generate env req s) = Raise e' ->
       exists e,
         first_failure env req (output_dir (globals s)) p = Some e /\
         ((isinstance_Exception e = true /\
           e' = HTTPException 500 (str_exc e)) \/
          (isinstance_Exception e = false /\ e' = e))).
Proof.
  intros env req s p Hm Hp. split; [| split].
  - intros e Hf He. rewrite (generate_failure env req s Hm Hp Hf), He.
    reflexivity.
  - intros e Hf He. rewrite (generate_failure env req s Hm Hp Hf), He.
    reflexivity.
  - intros e' Hr.
    destruct (first_failure env req (output_dir (globals s)) p) as [e |] eqn:Hf.
    + exists e. split; [reflexivity |].
      rewrite (generate_failure env req s Hm Hp Hf) in Hr.
      destruct (isinstance_Exception e); simpl in Hr; injection Hr as <-.
      * left. now split.
      * right. now split.
    + destruct (generate_success env req s Hm Hp Hf)
        as (img & rest & png & _ & _ & Hok & _).
      rewrite Hok in Hr. discriminate Hr.
Qed.

Lemma exceptions_become_500_witness :
  generate env_oom req_small real_server =
  (Raise (HTTPException 500 "CUDA out of memory"),
   snd (logger_exception "Generation failed" real_server)) /\
  generate env_exit req_small real_server = (Raise (SystemExit 3), real_server).
Proof.
  split.
  - exact (proj1 (@exceptions_become_500 env_oom req_small real_server
                    {| model_id := "Tongyi-MAI/Z-Image"; device := "cuda" |}
                    eq_refl eq_refl)
                 (PyException "OutOfMemoryError" "CUDA out of memory")
                 eq_refl eq_refl).
  - exact (proj1 (proj2 (@exceptions_become_500 env_exit req_small real_server
                    {| model_id := "Tongyi-MAI/Z-Image"; device := "cuda" |}
                    eq_refl eq_refl))
                 (SystemExit 3) eq_refl eq_refl).
Defined.

(* ================================================================= *)
(** ** The response *)

Lemma append_nonempty (a b : string) : b <> "" -> a ++ b <> "".
Proof.
  intros Hb. destruct a as [| c a]; simpl; [exact Hb | discriminate].
Qed.

Lemma join_nonempty (a b : string) : b <> "" -> posixpath.join a b <> "".
Proof.
  intros Hb. unfold posixpath.join.
  destruct (posixpath.startswith_sep b); [exact Hb |].
  destruct ((String.length a =? 0)%nat || posixpath.endswith_sep a).
  - now apply append_nonempty.
  - apply append_nonempty. discriminate.
Qed.

Lemma image_filename_nonempty ts req : image_filename ts req <> "".
Proof. unfold image_filename. apply append_nonempty. discriminate. Qed.

Lemma truthy_iff (s : string) : truthy s = true <-> s <> "".
Proof.
  destruct s; simpl; split; intros H; try discriminate; try reflexivity.
  now contradiction H.
Qed.

(** A successful answer outside mock mode comes from the generation
    path. *)
Lemma generate_Return_real env req s resp :
  mock_mode (globals s) = false ->
  fst (generate env req s) = Return resp ->
  exists p, pipe (globals s) = Some p /\
            first_failure env req (output_dir (globals s)) p = None.
Proof.
  intros Hm Hr.
  destruct (pipe (globals s)) as [p |] eqn:Hp.
  - exists p. split; [reflexivity |].
    destruct (first_failure env req (output_dir (globals s)) p) as [e |] eqn:Hf;
      [| reflexivity].
    rewrite (generate_failure env req s Hm Hp Hf) in Hr.
    destruct (isinstance_Exception e); discriminate Hr.
  - rewrite (generate_unloaded env req s Hm Hp) in Hr. discriminate Hr.
Qed.

(** C2, as stated, fails: a mock server with an output directory
    answers successfully with an empty [file_path]. *)
Lemma file_path_follows_output_dir_fails :
  ~ (forall env req s resp,
       fst (generate env req s) = Return resp ->
       (output_dir (globals s) <> "" -> file_path resp <> "") /\
       (output_dir (globals s) = "" -> file_path resp = "")).
Proof.
  intros H.
  destruct (H env_ok req_default mock_server _ eq_refl) as [H1 _].
  apply H1; [discriminate | reflexivity].
Qed.

(** C2, amended: for every successful POST /generate response outside
    mock mode, [file_path] is non-empty when an output directory is
    configured and the empty string when none is. *)
Theorem file_path_follows_output_dir :
  forall env req s resp,
    mock_mode (globals s) = false ->
    fst (generate env req s) = Return resp ->
    (output_dir (globals s) <> "" -> file_path resp <> "") /\
    (output_dir (globals s) = "" -> file_path resp = "").
Proof.
  intros env req s resp Hm Hr.
  destruct (generate_Return_real env req s Hm Hr) as (p & Hp & Hf).
  destruct (generate_success env req s Hm Hp Hf)
    as (img & rest & png & _ & _ & Hok & _).
  rewrite Hok in Hr. injection Hr as <-. simpl. split; intros Hod.
  - apply truthy_iff in Hod. rewrite Hod.
    apply join_nonempty, image_filename_nonempty.
  - rewrite Hod. reflexivity.
Qed.

Lemma file_path_follows_output_dir_witness :
  output_dir (globals real_server) = "output/zimage" /\
  file_path {| image := "iVBORw0KGgo="; mime_type := "image/png";
               file_path := "output/zimage/20261103_123456_8x4.png" |} <> "".
Proof.
  split; [reflexivity |].
  refine (proj1 (@file_path_follows_output_dir env_ok req_small real_server
                   _ eq_refl eq_refl) _).
  discriminate.
Defined.

(** C7: a request that leaves out width, height, steps or
    guidance_scale gets 1024, 1024, 28 and 4.0 for the field left out,
    and every response the handler returns, mock or real, has
    [mime_type] "image/png". *)
Theorem defaults_and_mime_type :
  (forall p,
     GenerateRequest_init (Some p) None None None None =
     Some {| prompt := p; width := 1024; height := 1024; steps := 28;
             guidance_scale := 4.0%float |}) /\
  (forall p h st g,
     option_map width (GenerateRequest_init (Some p) None h st g) = Some 1024) /\
  (forall p w st g,
     option_map height (GenerateRequest_init (Some p) w None st g) = Some 1024) /\
  (forall p w h g,
     option_map steps (GenerateRequest_init (Some p) w h None g) = Some 28) /\
  (forall p w h st,
     option_map guidance_scale (GenerateRequest_init (Some p) w h st None) =
     Some 4.0%float) /\
  (forall env req s resp,
     fst (generate env req s) = Return resp ->
     mime_type resp = "image/png").
Proof.
  repeat (split; [intros; reflexivity |]).
  intros env req s resp Hr.
  destruct (mock_mode (globals s)) eqn:Hm.
  - rewrite (generate_mock_Return env req s Hm Hr). reflexivity.
  - destruct (generate_Return_real env req s Hm Hr) as (p & Hp & Hf).
    destruct (generate_success env req s Hm Hp Hf)
      as (img & rest & png & _ & _ & Hok & _).
    rewrite Hok in Hr. injection Hr as <-. reflexivity.
Qed.

Lemma defaults_and_mime_type_witness :
  mime_type {| image := "iVBORw0KGgo="; mime_type := "image/png";
               file_path := "output/zimage/20261103_123456_8x4.png" |} =
  "image/png".
Proof.
  exact (proj2 (proj2 (proj2 (proj2 (proj2 defaults_and_mime_type))))
           env_ok req_small real_server _ eq_refl).
Defined.

(* ================================================================= *)
(** ** The name of a saved image *)

(** A boolean property checked on every number below [k] holds below [k]. *)
Lemma forall_below (P : N -> bool) (k : nat) :
  forallb P (map N.of_nat (seq 0 k)) = true ->
  forall n, (n < N.of_nat k)%N -> P n = true.
Proof.
  intros H n Hn. rewrite forallb_forall in H. apply H.
  rewrite <- (N2Nat.id n). apply in_map. apply in_seq. lia.
Qed.

Lemma pad2_digits n :
  (n < 100)%N ->
  exists a b, pad 2 n = String a (String b "") /\
              is_digit a = true /\ is_digit b = true.
Proof.
  intros Hn.
  pose (P := fun m => match pad 2 m with
                      | String a (String b EmptyString) =>
                          is_digit a && is_digit b
                      | _ => false
                      end).
  assert (H : P n = true).
  { apply (forall_below P 100); [vm_compute; reflexivity | exact Hn]. }
  subst P. cbv beta in H.
  destruct (pad 2 n) as [| a [| b [| c r]]]; try discriminate H.
  apply andb_prop in H. exists a, b. now split.
Qed.

Lemma pad4_digits n :
  (n < 10000)%N ->
  exists a b c d,
    pad 4 n = String a (String b (String c (String d ""))) /\
    forallb is_digit [a; b; c; d] = true.
Proof.
  intros Hn.
  pose (P := fun m => match pad 4 m with
                      | String a (String b (String c (String d EmptyString))) =>
                          forallb is_digit [a; b; c; d]
                      | _ => false
                      end).
  assert (H : P n = true).
  { apply (forall_below P (N.to_nat 10000)); [vm_compute; reflexivity | exact Hn]. }
  subst P. cbv beta in H.
  destruct (pad 4 n) as [| a [| b [| c [| d [| x r]]]]]; try discriminate H.
  exists a, b, c, d. now split.
Qed.

(** The timestamp of a valid date has the shape YYYYMMDD_HHMMSS. *)
Lemma strftime_shape d :
  datetime.valid d = true -> timestamp_shape (datetime.strftime d) = true.
Proof.
  unfold datetime.valid. intros H.
  repeat (apply andb_prop in H; destruct H as [H ?]).
  repeat match goal with
         | E : (_ <=? _)%N = true |- _ => apply N.leb_le in E
         end.
  destruct (@pad4_digits (datetime.year d)) as (y1 & y2 & y3 & y4 & Ey & Dy);
    [lia |].
  destruct (@pad2_digits (datetime.month d)) as (m1 & m2 & Em & Dm1 & Dm2); [lia |].
  destruct (@pad2_digits (datetime.day d)) as (d1 & d2 & Ed & Dd1 & Dd2); [lia |].
  destruct (@pad2_digits (datetime.hour d)) as (h1 & h2 & Eh & Dh1 & Dh2); [lia |].
  destruct (@pad2_digits (datetime.minute d)) as (n1 & n2 & En & Dn1 & Dn2); [lia |].
  destruct (@pad2_digits (datetime.second d)) as (s1 & s2 & Es & Ds1 & Ds2); [lia |].
  unfold datetime.strftime. rewrite Ey, Em, Ed, Eh, En, Es.
  unfold timestamp_shape. cbn [append list_ascii_of_string].
  cbn [forallb] in *.
  rewrite Dm1, Dm2, Dd1, Dd2, Dh1, Dh2, Dn1, Dn2, Ds1, Ds2.
  repeat (apply andb_prop in Dy; destruct Dy as [? Dy]).
  repeat match goal with
         | E : is_digit _ = true |- _ => rewrite E; clear E
         end.
  reflexivity.
Qed.

(** C8: every successful generation outside mock mode with an output
    directory configured saves the image under
    [os.path.join(output_dir, "{ts}_{width}x{height}.png")], with the
    width and height of the request and [ts] the current time formatted
    as YYYYMMDD_HHMMSS, and returns that path. *)
Theorem saved_file_name :
  forall env req s resp,
    mock_mode (globals s) = false ->
    output_dir (globals s) <> "" ->
    fst (generate env req s) = Return resp ->
    let ts := datetime.strftime (now env) in
    let path :=
      posixpath.join (output_dir (globals s))
        (ts ++ "_" ++ str_int (width req) ++ "x" ++ str_int (height req) ++
         ".png") in
    file_path resp = path /\
    (exists img, files (snd (generate env req s)) = (path, img) :: files s) /\
    (datetime.valid (now env) = true -> timestamp_shape ts = true).
Proof.
  intros env req s resp Hm Hod Hr ts path.
  destruct (generate_Return_real env req s Hm Hr) as (p & Hp & Hf).
  destruct (generate_success env req s Hm Hp Hf)
    as (img & rest & png & _ & _ & Hok & Hfiles).
  apply truthy_iff in Hod. rewrite Hod in Hok, Hfiles.
  rewrite Hok in Hr. injection Hr as <-.
  split; [reflexivity |].
  split; [exists img; exact Hfiles |].
  apply strftime_shape.
Qed.

Lemma saved_file_name_witness :
  file_path {| image := "iVBORw0KGgo="; mime_type := "image/png";
               file_path := "output/zimage/20261103_123456_8x4.png" |} =
  "output/zimage/20261103_123456_8x4.png" /\
  timestamp_shape "20261103_123456" = true.
Proof.
  pose (H := @saved_file_name env_ok req_small real_server
               {| image := "iVBORw0KGgo="; mime_type := "image/png";
                  file_path := "output/zimage/20261103_123456_8x4.png" |}
               eq_refl ltac:(discriminate) eq_refl).
  split; [exact (proj1 H) | exact (proj2 (proj2 H) eq_refl)].
Defined.

(* ================================================================= *)
(** ** The self-test *)

(** C5, as stated, fails: the pipeline paints a 512x512 PIL image, the
    relative path [scripts/test_output.png] cannot be written, and the
    process ends with status 1 on the uncaught [FileNotFoundError]. *)
Lemma self_test_status_iff_image_fails :
  ~ (forall host env model s s1 p img rest,
       load_model host model s = (Return tt, s1) ->
       pipe (globals s1) = Some p ->
       call_pipe env p "a red circle on a white background" 512 512 28
         4.0%float (Some 42) = Return (img :: rest) ->
       (exit_status (fst (run_self_test host env model s)) = 0 <->
        is_pil_512 img = true)).
Proof.
  intros H.
  pose proof (H host_cuda env_no_dir "m" boot
                (snd (load_model host_cuda "m" boot))
                {| model_id := "m"; device := "cuda" |}
                (PILImage (Image_new "RGB" (512, 512) (255, 0, 0))) []
                eq_refl eq_refl eq_refl) as [_ H0].
  specialize (H0 eq_refl). vm_compute in H0. discriminate H0.
Qed.

(** C5, amended: once the model is loaded and the pipeline has answered
    the fixed-seed 512x512 request, the self-test exits with status 0
    only if the first output is a PIL image of exactly 512x512, and it
    does exit with 0 when moreover that image is saved to
    [scripts/test_output.png]; when the output is not a PIL image or its
    size differs from 512x512, the process exits with status 1. *)
Theorem self_test_exit_status :
  forall host env model s s1 p img rest,
    load_model host model s = (Return tt, s1) ->
    pipe (globals s1) = Some p ->
    call_pipe env p "a red circle on a white background" 512 512 28
      4.0%float (Some 42) = Return (img :: rest) ->
    let status := exit_status (fst (run_self_test host env model s)) in
    (status = 0 -> is_pil_512 img = true) /\
    (is_pil_512 img = true ->
     save_file env img "scripts/test_output.png" = Return tt ->
     status = 0) /\
    (is_pil_512 img = false -> status = 1).
Proof.
  intros host env model s s1 p img rest Hload Hp Hcall status.
  subst status. unfold run_self_test.
  erewrite bind_Return by exact Hload.
  unfold bind, logger_info, logger_error, emit, gets, extern, getitem0, ret,
    raise, sys_exit, img_save.
  cbn beta iota. cbn [globals]. rewrite Hp. cbn beta iota.
  rewrite Hcall. cbn beta iota.
  destruct img as [im | r].
  - unfold is_pil_512. destruct (im_size im) as [w h]. cbn [fst snd].
    destruct (w =? 512); destruct (h =? 512); cbn [negb orb andb];
      cbn beta iota;
      try (split; [intros H; discriminate H
                  | split; [intros H; discriminate H | reflexivity]]).
    destruct (save_file env (PILImage im) "scripts/test_output.png")
      as [[] | e]; cbn beta iota.
    + split; [reflexivity | split; [reflexivity | intros H; discriminate H]].
    + split; [reflexivity |].
      split; [intros _ H; discriminate H | intros H; discriminate H].
  - cbn beta iota. split; [intros H; discriminate H |].
    split; [intros H; discriminate H | reflexivity].
Qed.

Lemma self_test_exit_status_witness :
  exit_status (fst (run_self_test host_cuda env_ok "m" boot)) = 0 /\
  exit_status (fst (run_self_test host_cuda env_small "m" boot)) = 1.
Proof.
  split.
  - exact (proj1 (proj2
             (@self_test_exit_status host_cuda env_ok "m" boot
                (snd (load_model host_cuda "m" boot))
                {| model_id := "m"; device := "cuda" |}
                (PILImage (Image_new "RGB" (512, 512) (255, 0, 0))) []
                eq_refl eq_refl eq_refl))
             eq_refl eq_refl).
  - exact (proj2 (proj2
             (@self_test_exit_status host_cuda env_small "m" boot
                (snd (load_model host_cuda "m" boot))
                {| model_id := "m"; device := "cuda" |}
                (PILImage (Image_new "RGB" (256, 256) (255, 0, 0))) []
                eq_refl eq_refl eq_refl))
             eq_refl).
Defined.

(* ================================================================= *)
(** ** Device selection and model load *)

(** Unfolds the primitives of the monad. *)
Ltac unfold_m :=
  unfold getitem0, sys_exit, logger_info, logger_error, logger_exception,
    bind, gets, assign, extern, try_except, emit, ret, raise, img_save,
    makedirs, time_sleep in *.

(** Splits on the innermost scrutinee of a match, in the goal or in a
    hypothesis. *)
Ltac split_match :=
  match goal with
  | |- context [match ?x with _ => _ end] =>
      lazymatch x with
      | context [match _ with _ => _ end] => fail
      | _ => destruct x eqn:?
      end
  | H : context [match ?x with _ => _ end] |- _ =>
      lazymatch x with
      | context [match _ with _ => _ end] => fail
      | _ => destruct x eqn:?
      end
  end.

Ltac run_all := repeat (split_match; cbn beta iota in * ).

(** Device detection only logs. *)
Lemma _detect_device_frame host s :
  globals (snd (_detect_device host s)) = globals s /\
  files (snd (_detect_device host s)) = files s /\
  dirs (snd (_detect_device host s)) = dirs s /\
  assigned (snd (_detect_device host s)) = assigned s.
Proof.
  unfold _detect_device. unfold_m. run_all; cbn; auto.
Qed.

Lemma _detect_device_values host s d s' :
  _detect_device host s = (Return d, s') -> d = "cuda" \/ d = "cpu".
Proof.
  unfold _detect_device. unfold_m. intros H.
  run_all; inversion H; subst; auto.
Qed.

(** X1: when device detection returns, the device is "cuda" or "cpu",
    and neither the globals nor the written files have changed. *)
Theorem detect_device_cuda_or_cpu :
  forall host s d s',
    _detect_device host s = (Return d, s') ->
    (d = "cuda" \/ d = "cpu") /\ globals s' = globals s /\ files s' = files s.
Proof.
  intros host s d s' H.
  destruct (@_detect_device_frame host s) as (Hg & Hf & _).
  rewrite H in Hg, Hf.
  split; [exact (@_detect_device_values host s d s' H) | split; assumption].
Qed.

Lemma detect_device_cuda_or_cpu_witness :
  ("cuda" = "cuda" \/ "cuda" = "cpu") /\
  globals (snd (_detect_device host_cuda boot)) = globals boot /\
  files (snd (_detect_device host_cuda boot)) = files boot.
Proof.
  exact (@detect_device_cuda_or_cpu host_cuda boot "cuda"
           (snd (_detect_device host_cuda boot)) eq_refl).
Defined.

(** X2: without CUDA, an exception (an instance of [Exception]) raised
    by the ROCm probe, by the availability test or by the device name,
    is swallowed, and detection falls back to "cpu" with the log line
    "Using CPU (slow)". *)
Theorem rocm_probe_failure_falls_back :
  forall host s e,
    cuda_is_available host = false ->
    has_hip_or_rocm host = true ->
    rocm_is_available host = Raise e \/
    (rocm_is_available host = Return true /\
     rocm_get_device_name host = Raise e) ->
    isinstance_Exception e = true ->
    _detect_device host s =
    (Return "cpu", snd (logger_info "Using CPU (slow)" s)).
Proof.
  intros host s e Hc Hh Hr He.
  unfold _detect_device. unfold_m. rewrite Hc, Hh.
  destruct Hr as [Hr | [Hr Hn]].
  - rewrite Hr. cbn beta iota. rewrite He. reflexivity.
  - rewrite Hr. cbn beta iota. rewrite Hn. cbn beta iota. rewrite He.
    reflexivity.
Qed.

Lemma rocm_probe_failure_falls_back_witness :
  _detect_device host_rocm_broken boot =
  (Return "cpu", snd (logger_info "Using CPU (slow)" boot)).
Proof.
  exact (@rocm_probe_failure_falls_back host_rocm_broken boot
           (PyException "RuntimeError" "HIP error")
           eq_refl eq_refl (or_introl eq_refl) eq_refl).
Defined.

(** X3: in the CUDA branch the device name is read outside any handler:
    when [get_device_name] raises, detection raises the same exception
    and nothing is logged. *)
Theorem cuda_name_failure_propagates :
  forall host s e,
    cuda_is_available host = true ->
    cuda_get_device_name host = Raise e ->
    _detect_device host s = (Raise e, s).
Proof.
  intros host s e Hc Hn. unfold _detect_device. unfold_m.
  rewrite Hc, Hn. reflexivity.
Qed.

Lemma cuda_name_failure_propagates_witness :
  _detect_device host_cuda_noname boot =
  (Raise (PyException "RuntimeError" "CUDA error"), boot).
Proof.
  exact (@cuda_name_failure_propagates host_cuda_noname boot _ eq_refl eq_refl).
Defined.

(** Every run of [load_model]: the weights are missing; or the handle
    is bound to the pretrained pipeline [p] and then device placement
    fails, or CPU offload is enabled, or the handle is bound again to
    the pipeline moved to "cuda". *)
Lemma load_model_cases host model s :
  (exists e,
     from_pretrained host model = Raise e /\
     load_model host model s =
     (Raise e, snd (logger_info ("Loading model: " ++ model) s))) \/
  (exists p s',
     from_pretrained host model = Return p /\
     files s' = files s /\ dirs s' = dirs s /\
     ((exists e,
         load_model host model s = (Raise e, s') /\
         globals s' = set_pipe (Some p) (globals s)) \/
      (load_model host model s = (Return tt, s') /\
       enable_model_cpu_offload host p = Return tt /\
       globals s' = set_pipe (Some p) (globals s)) \/
      (exists q,
         load_model host model s = (Return tt, s') /\
         pipe_to host p "cuda" = Return q /\
         globals s' = set_pipe (Some q) (globals s)))).
Proof.
  unfold load_model. cbv zeta.
  unfold bind, gets, assign, extern, logger_info, emit, ret, raise.
  cbn beta iota.
  destruct (from_pretrained host model) as [p | e];
    [| left; exists e; split; reflexivity].
  right. exists p. cbn beta iota.
  match goal with
  | |- context [_detect_device host ?s1] =>
      pose proof (@_detect_device_frame host s1) as (Hg & Hf & Hd & _);
      pose proof (@_detect_device_values host s1) as Hv;
      destruct (_detect_device host s1) as [[dev | e] s2]
  end; cbn [fst snd globals files dirs] in Hg, Hf, Hd.
  - destruct (Hv dev s2 eq_refl) as [-> | ->]; cbn beta iota;
      cbn [negb String.eqb Ascii.eqb Bool.eqb]; rewrite Hg; cbn [pipe set_pipe].
    + destruct (pipe_to host p "cuda") as [q | e]; cbn beta iota.
      * refine (ex_intro _ _ (conj eq_refl (conj _ (conj _
                 (or_intror (or_intror (ex_intro _ q
                    (conj eq_refl (conj eq_refl _)))))))));
          cbn [files dirs globals]; try assumption.
        rewrite Hg. reflexivity.
      * exists s2. split; [reflexivity |]. split; [exact Hf |].
        split; [exact Hd |].
        left. exists e. split; [reflexivity | exact Hg].
    + destruct (enable_model_cpu_offload host p) as [[] | e]; cbn beta iota.
      * refine (ex_intro _ _ (conj eq_refl (conj _ (conj _
                 (or_intror (or_introl
                    (conj eq_refl (conj eq_refl _))))))));
          cbn [files dirs globals]; assumption.
      * exists s2. split; [reflexivity |]. split; [exact Hf |].
        split; [exact Hd |].
        left. exists e. split; [reflexivity | exact Hg].
  - exists s2. split; [reflexivity |]. split; [exact Hf |]. split; [exact Hd |].
    left. exists e. split; [reflexivity | exact Hg].
Qed.

(** The device that detection returns depends on the host alone. *)
Lemma _detect_device_fst host s s' :
  fst (_detect_device host s) = fst (_detect_device host s').
Proof.
  unfold _detect_device. unfold_m. run_all; reflexivity.
Qed.

(** The branch of a successful load follows the detected device. *)
Lemma load_model_Return_device host model s s' :
  load_model host model s = (Return tt, s') ->
  exists p,
    from_pretrained host model = Return p /\
    ((fst (_detect_device host s) = Return "cpu" /\
      pipe (globals s') = Some p /\
      enable_model_cpu_offload host p = Return tt) \/
     (fst (_detect_device host s) = Return "cuda" /\
      exists q, pipe (globals s') = Some q /\
                pipe_to host p "cuda" = Return q)).
Proof.
  unfold load_model. cbv zeta.
  unfold bind, gets, assign, extern, logger_info, emit, ret, raise.
  cbn beta iota.
  destruct (from_pretrained host model) as [p | e];
    [| intros H; discriminate H].
  cbn beta iota.
  match goal with
  | |- context [_detect_device host ?s1] =>
      pose proof (@_detect_device_frame host s1) as (Hg & _);
      pose proof (@_detect_device_values host s1) as Hv;
      pose proof (_detect_device_fst host s s1) as Hs;
      destruct (_detect_device host s1) as [[dev | e] s2]
  end; cbn [fst snd globals] in Hg, Hs; [| intros H; discriminate H].
  destruct (Hv dev s2 eq_refl) as [-> | ->]; cbn beta iota;
    cbn [negb String.eqb Ascii.eqb Bool.eqb]; rewrite Hg; cbn [pipe set_pipe].
  - destruct (pipe_to host p "cuda") as [q | e] eqn:Hq; cbn beta iota;
      intros H; [| discriminate H].
    injection H as <-. exists p. split; [reflexivity |].
    right. split; [exact Hs |]. exists q. split; [reflexivity | exact Hq].
  - destruct (enable_model_cpu_offload host p) as [[] | e] eqn:Ho;
      cbn beta iota; intros H; [| discriminate H].
    injection H as <-. exists p. split; [reflexivity |].
    left. split; [exact Hs |]. split; [| exact Ho].
    cbn [globals]. rewrite Hg. reflexivity.
Qed.

(** X4: after a successful [load_model] the handle is present, and
    which pipeline it is follows the device that [_detect_device]
    returns on this host: for "cpu" it is the pretrained pipeline
    itself, with CPU offload enabled; for "cuda" it is the pipeline that
    [pipe.to("cuda")] returned.  The other globals and the written files
    are untouched. *)
Theorem load_model_binds_handle :
  forall host model s s',
    load_model host model s = (Return tt, s') ->
    exists p,
      from_pretrained host model = Return p /\
      ((fst (_detect_device host s) = Return "cpu" /\
        pipe (globals s') = Some p /\
        enable_model_cpu_offload host p = Return tt) \/
       (fst (_detect_device host s) = Return "cuda" /\
        exists q, pipe (globals s') = Some q /\
                  pipe_to host p "cuda" = Return q)) /\
      mock_mode (globals s') = mock_mode (globals s) /\
      mock_image_b64 (globals s') = mock_image_b64 (globals s) /\
      mock_delay (globals s') = mock_delay (globals s) /\
      output_dir (globals s') = output_dir (globals s) /\
      files s' = files s.
Proof.
  intros host model s s' H.
  destruct (load_model_Return_device host model s H) as (p & Hp & Hdev).
  exists p. split; [exact Hp |]. split; [exact Hdev |].
  destruct (load_model_cases host model s)
    as [(e & _ & E) | (p' & s2 & _ & Hf & _ & Hc)].
  - rewrite E in H. discriminate H.
  - destruct Hc as [(e & E & _) | [(E & _ & Hg) | (q & E & _ & Hg)]];
      rewrite E in H; try discriminate H; injection H as <-;
      rewrite Hg; cbn [pipe mock_mode mock_image_b64 mock_delay output_dir
                       set_pipe]; repeat split; assumption.
Qed.

Lemma load_model_binds_handle_witness :
  (exists p,
     from_pretrained host_cuda "m" = Return p /\
     ((fst (_detect_device host_cuda boot) = Return "cpu" /\
       pipe (globals (snd (load_model host_cuda "m" boot))) = Some p /\
       enable_model_cpu_offload host_cuda p = Return tt) \/
      (fst (_detect_device host_cuda boot) = Return "cuda" /\
       exists q,
         pipe (globals (snd (load_model host_cuda "m" boot))) = Some q /\
         pipe_to host_cuda p "cuda" = Return q)) /\
     mock_mode (globals (snd (load_model host_cuda "m" boot))) = false /\
     mock_image_b64 (globals (snd (load_model host_cuda "m" boot))) = "" /\
     mock_delay (globals (snd (load_model host_cuda "m" boot))) = 0%float /\
     output_dir (globals (snd (load_model host_cuda "m" boot))) = "" /\
     files (snd (load_model host_cuda "m" boot)) = []) /\
  pipe (globals (snd (load_model host_cpu "m" boot))) =
  Some {| model_id := "m"; device := "cpu" |}.
Proof.
  split.
  - exact (@load_model_binds_handle host_cuda "m" boot
             (snd (load_model host_cuda "m" boot)) eq_refl).
  - destruct (@load_model_binds_handle host_cpu "m" boot
                (snd (load_model host_cpu "m" boot)) eq_refl)
      as (p & Hp & [(_ & Hpipe & _) | (Hdev & _)] & _).
    + injection Hp as <-. exact Hpipe.
    + discriminate Hdev.
Defined.

(** X5: when [from_pretrained] raises, [load_model] raises the same
    exception after its first log line, and no global is assigned: the
    handle stays as it was. *)
Theorem load_model_missing_weights :
  forall host model s e,
    from_pretrained host model = Raise e ->
    load_model host model s =
    (Raise e, snd (logger_info ("Loading model: " ++ model) s)) /\
    globals (snd (load_model host model s)) = globals s /\
    assigned (snd (load_model host model s)) = assigned s.
Proof.
  intros host model s e He.
  destruct (load_model_cases host model s)
    as [(e' & He' & E) | (p & s2 & Hp & _)].
  - rewrite He in He'. injection He' as <-. rewrite E.
    split; [reflexivity | split; reflexivity].
  - rewrite He in Hp. discriminate Hp.
Qed.

Lemma load_model_missing_weights_witness :
  load_model host_no_weights "m" boot =
  (Raise (PyException "OSError" "model is not a local folder"),
   snd (logger_info "Loading model: m" boot)) /\
  globals (snd (load_model host_no_weights "m" boot)) = globals boot /\
  assigned (snd (load_model host_no_weights "m" boot)) = assigned boot.
Proof.
  exact (@load_model_missing_weights host_no_weights "m" boot _ eq_refl).
Defined.

(** X6: the handle is bound before device placement: when [load_model]
    raises after [from_pretrained] has returned [p] (device detection,
    [pipe.to] or [enable_model_cpu_offload] failed), the global [pipe]
    is left bound to [p]. *)
Theorem load_model_failure_leaves_handle :
  forall host model s p e s',
    from_pretrained host model = Return p ->
    load_model host model s = (Raise e, s') ->
    pipe (globals s') = Some p.
Proof.
  intros host model s p e s' Hp H.
  destruct (load_model_cases host model s)
    as [(e' & He' & _) | (p' & s2 & Hp' & _ & _ & Hc)].
  - rewrite Hp in He'. discriminate He'.
  - rewrite Hp in Hp'. injection Hp' as <-.
    destruct Hc as [(e' & E & Hg) | [(E & _) | (q & E & _)]];
      rewrite E in H; try discriminate H.
    injection H as _ <-. rewrite Hg. reflexivity.
Qed.

Lemma load_model_failure_leaves_handle_witness :
  pipe (globals (snd (load_model host_move_fails "m" boot))) =
  Some {| model_id := "m"; device := "cpu" |}.
Proof.
  exact (@load_model_failure_leaves_handle host_move_fails "m" boot
           {| model_id := "m"; device := "cpu" |}
           (PyException "RuntimeError" "CUDA out of memory")
           (snd (load_model host_move_fails "m" boot)) eq_refl eq_refl).
Defined.

(* ================================================================= *)
(** ** The self-test, continued *)

(** [run_self_test] ends in [sys.exit] or in an uncaught exception. *)
Lemma run_self_test_raises host env model s :
  exists e, fst (run_self_test host env model s) = Raise e.
Proof.
  unfold run_self_test, bind.
  destruct (load_model host model s) as [[[] | e] s1]; [| cbn; eauto].
  unfold_m. run_all; cbn; eauto.
Qed.

(** X7: the self-test never returns: [run_self_test] always raises
    ([SystemExit] or an uncaught exception), so with [--self-test] the
    startup block raises too and not one request is served. *)
Theorem self_test_never_serves :
  forall host env args rs,
    arg_self_test args = true ->
    (exists e, fst (main host env args boot) = Raise e) /\
    process host env args rs = snd (main host env args boot).
Proof.
  intros host env args rs Ht.
  assert (H : exists e, fst (main host env args boot) = Raise e).
  { unfold main. rewrite Ht. unfold bind at 1 2 3 4.
    unfold assign at 1. unfold gets at 1. cbn beta iota.
    unfold makedirs at 1. cbn [globals].
    destruct (os_makedirs host _) as [created | e]; [| cbn; eauto].
    unfold logger_info at 1. unfold emit at 1. cbn beta iota.
    apply run_self_test_raises. }
  split; [exact H |].
  destruct H as [e He]. unfold process.
  destruct (main host env args boot) as [[[] | e'] s]; [discriminate He |].
  reflexivity.
Qed.

Lemma self_test_never_serves_witness :
  (exists e, fst (main host_cuda env_ok args_self_test boot) = Raise e) /\
  process host_cuda env_ok args_self_test [GET_health] =
  snd (main host_cuda env_ok args_self_test boot).
Proof.
  exact (@self_test_never_serves host_cuda env_ok args_self_test [GET_health]
           eq_refl).
Defined.

(** X8: [--self-test] takes precedence over [--mock]: with both flags
    the startup block does exactly what it does with [--self-test]
    alone. *)
Theorem self_test_overrides_mock :
  forall host env args s,
    arg_self_test args = true ->
    main host env args s =
    main host env
      {| arg_port := arg_port args; arg_host := arg_host args;
         arg_model := arg_model args; arg_mock := negb (arg_mock args);
         arg_mock_delay := arg_mock_delay args;
         arg_self_test := arg_self_test args;
         arg_output_dir := arg_output_dir args |} s.
Proof.
  intros host env args s Ht. unfold main. cbn [arg_self_test arg_output_dir
    arg_model]. rewrite Ht. reflexivity.
Qed.

Lemma self_test_overrides_mock_witness :
  main host_cuda env_ok args_self_test_mock boot =
  main host_cuda env_ok args_self_test boot.
Proof.
  exact (@self_test_overrides_mock host_cuda env_ok args_self_test_mock boot
           eq_refl).
Defined.

Lemma load_model_files host model s :
  files (snd (load_model host model s)) = files s.
Proof.
  destruct (load_model_cases host model s)
    as [(e & _ & E) | (p & s2 & _ & Hf & _ & Hc)].
  - rewrite E. reflexivity.
  - destruct Hc as [(e & E & _) | [(E & _) | (q & E & _)]];
      rewrite E; exact Hf.
Qed.

(** X9: the self-test writes its output file only after both checks:
    when the first image is not a PIL image of 512x512 no file is
    written, and when it is and the save succeeds, the one file written
    is [scripts/test_output.png]. *)
Theorem self_test_output_file :
  forall host env model s s1 p img rest,
    load_model host model s = (Return tt, s1) ->
    pipe (globals s1) = Some p ->
    call_pipe env p "a red circle on a white background" 512 512 28
      4.0%float (Some 42) = Return (img :: rest) ->
    let s' := snd (run_self_test host env model s) in
    (is_pil_512 img = false -> files s' = files s) /\
    (is_pil_512 img = true ->
     save_file env img "scripts/test_output.png" = Return tt ->
     files s' = ("scripts/test_output.png", img) :: files s).
Proof.
  intros host env model s s1 p img rest Hload Hp Hcall s'. subst s'.
  pose proof (load_model_files host model s) as Hf.
  rewrite Hload in Hf. cbn [snd] in Hf.
  unfold run_self_test. erewrite bind_Return by exact Hload.
  unfold_m. cbn beta iota. cbn [globals]. rewrite Hp. cbn beta iota.
  rewrite Hcall. cbn beta iota.
  destruct img as [im | r].
  - unfold is_pil_512. destruct (im_size im) as [w h]. cbn [fst snd].
    destruct (w =? 512); destruct (h =? 512); cbn [negb orb andb];
      cbn beta iota;
      try (split; [intros _; exact Hf | intros H; discriminate H]).
    split; [intros H; discriminate H |].
    intros _ Hs. cbv zeta. rewrite Hs. cbn. now rewrite Hf.
  - cbn. split; [intros _; exact Hf | intros H; discriminate H].
Qed.

Lemma self_test_output_file_witness :
  files (snd (run_self_test host_cuda env_small "m" boot)) = [] /\
  files (snd (run_self_test host_cuda env_ok "m" boot)) =
  [("scripts/test_output.png",
    PILImage (Image_new "RGB" (512, 512) (255, 0, 0)))].
Proof.
  split.
  - exact (proj1
             (@self_test_output_file host_cuda env_small "m" boot
                (snd (load_model host_cuda "m" boot))
                {| model_id := "m"; device := "cuda" |}
                (PILImage (Image_new "RGB" (256, 256) (255, 0, 0))) []
                eq_refl eq_refl eq_refl) eq_refl).
  - exact (proj2
             (@self_test_output_file host_cuda env_ok "m" boot
                (snd (load_model host_cuda "m" boot))
                {| model_id := "m"; device := "cuda" |}
                (PILImage (Image_new "RGB" (512, 512) (255, 0, 0))) []
                eq_refl eq_refl eq_refl) eq_refl eq_refl).
Defined.

Lemma exit_status_Exception {A} (e : PyExc) :
  isinstance_Exception e = true -> exit_status (@Raise A e) = 1.
Proof. destruct e; intros H; try discriminate H; reflexivity. Qed.

(** X10: the self-test has no handler of its own: when the model load
    or the pipeline call raises an instance of [Exception], or the
    pipeline returns no image, the process ends with exit status 1. *)
Theorem self_test_failure_status :
  forall host env model s s1 p,
    (forall e,
       load_model host model s = (Raise e, s1) ->
       isinstance_Exception e = true ->
       exit_status (fst (run_self_test host env model s)) = 1) /\
    (forall e,
       load_model host model s = (Return tt, s1) ->
       pipe (globals s1) = Some p ->
       call_pipe env p "a red circle on a white background" 512 512 28
         4.0%float (Some 42) = Raise e ->
       isinstance_Exception e = true ->
       exit_status (fst (run_self_test host env model s)) = 1) /\
    (load_model host model s = (Return tt, s1) ->
     pipe (globals s1) = Some p ->
     call_pipe env p "a red circle on a white background" 512 512 28
       4.0%float (Some 42) = Return [] ->
     exit_status (fst (run_self_test host env model s)) = 1).
Proof.
  intros host env model s s1 p. split; [| split].
  - intros e Hload He. unfold run_self_test.
    erewrite bind_Raise by exact Hload. now apply exit_status_Exception.
  - intros e Hload Hp Hcall He. unfold run_self_test.
    erewrite bind_Return by exact Hload.
    unfold_m. cbn beta iota. cbn [globals]. rewrite Hp. cbn beta iota.
    rewrite Hcall. cbn beta iota. now apply exit_status_Exception.
  - intros Hload Hp Hcall. unfold run_self_test.
    erewrite bind_Return by exact Hload.
    unfold_m. cbn beta iota. cbn [globals]. rewrite Hp. cbn beta iota.
    rewrite Hcall. reflexivity.
Qed.

Lemma self_test_failure_status_witness :
  exit_status (fst (run_self_test host_no_weights env_ok "m" boot)) = 1 /\
  exit_status (fst (run_self_test host_cuda env_oom "m" boot)) = 1 /\
  exit_status (fst (run_self_test host_cuda env_no_images "m" boot)) = 1.
Proof.
  split; [| split].
  - exact (proj1 (@self_test_failure_status host_no_weights env_ok "m" boot
                    (snd (load_model host_no_weights "m" boot))
                    {| model_id := "m"; device := "cuda" |})
                 _ eq_refl eq_refl).
  - exact (proj1 (proj2 (@self_test_failure_status host_cuda env_oom "m" boot
                    (snd (load_model host_cuda "m" boot))
                    {| model_id := "m"; device := "cuda" |}))
                 _ eq_refl eq_refl eq_refl eq_refl).
  - exact (proj2 (proj2 (@self_test_failure_status host_cuda env_no_images
                    "m" boot (snd (load_model host_cuda "m" boot))
                    {| model_id := "m"; device := "cuda" |}))
                 eq_refl eq_refl eq_refl).
Defined.

(* ================================================================= *)
(** ** The startup block *)

(** The startup block, step by step. *)
Lemma main_unfold host env args s :
  main host env args s =
  let od := arg_output_dir args in
  let s0 := snd (assign (set_output_dir od) s) in
  match os_makedirs host od with
  | Raise e => (Raise e, s0)
  | Return _ =>
      let s1 := snd (logger_info ("Output directory: " ++ od)
                       (snd (makedirs host od s0))) in
      if arg_self_test args then run_self_test host env (arg_model args) s1
      else if arg_mock args then
        (assign (set_mock_delay (arg_mock_delay args)) ;; init_mock env) s1
      else load_model host (arg_model args) s1
  end.
Proof.
  unfold main. cbv zeta.
  unfold bind at 1 2 3 4. unfold assign at 1. unfold gets at 1.
  cbn beta iota. cbn [globals output_dir set_output_dir].
  unfold makedirs.
  destruct (os_makedirs host (arg_output_dir args)) as [created | e];
    [| reflexivity].
  cbn beta iota. unfold logger_info at 1. unfold emit at 1. cbn beta iota.
  destruct (arg_self_test args); [reflexivity |].
  destruct (arg_mock args); reflexivity.
Qed.

(** What a startup that reaches the server has established. *)
Lemma main_started host env args s :
  main host env args boot = (Return tt, s) ->
  arg_self_test args = false /\
  (exists created,
     os_makedirs host (arg_output_dir args) = Return created /\
     dirs s = created) /\
  output_dir (globals s) = arg_output_dir args /\
  files s = [] /\
  if arg_mock args
  then mock_mode (globals s) = true /\
       pipe (globals s) = None /\
       mock_delay (globals s) = arg_mock_delay args /\
       exists png,
         save_png env (PILImage (Image_new "RGB" (64, 64) (100, 149, 237))) =
         Return png /\
         mock_image_b64 (globals s) = base64.b64encode png
  else mock_mode (globals s) = false /\
       (exists q, pipe (globals s) = Some q) /\
       mock_delay (globals s) = 0%float /\
       mock_image_b64 (globals s) = "".
Proof.
  rewrite main_unfold. cbv zeta. unfold makedirs.
  destruct (os_makedirs host (arg_output_dir args)) as [created | e];
    [| intros H; discriminate H].
  destruct (arg_self_test args).
  { intros H.
    match type of H with
    | run_self_test ?h ?e ?m ?s1 = _ =>
        destruct (run_self_test_raises h e m s1) as [x Hx]
    end.
    rewrite H in Hx. discriminate Hx. }
  match goal with
  | |- context [snd (logger_info ?m ?s0)] =>
      set (s1 := snd (logger_info m s0))
  end.
  assert (Hg1 : globals s1 =
                set_output_dir (arg_output_dir args) initial_globals)
    by reflexivity.
  assert (Hd1 : dirs s1 = created)
    by (subst s1; cbn; apply app_nil_r).
  assert (Hf1 : files s1 = []) by reflexivity.
  clearbody s1.
  intros H. split; [reflexivity |].
  assert (Hrest :
    dirs s = created /\
    output_dir (globals s) = arg_output_dir args /\
    files s = [] /\
    if arg_mock args
    then mock_mode (globals s) = true /\
         pipe (globals s) = None /\
         mock_delay (globals s) = arg_mock_delay args /\
         exists png,
           save_png env
             (PILImage (Image_new "RGB" (64, 64) (100, 149, 237))) =
           Return png /\
           mock_image_b64 (globals s) = base64.b64encode png
    else mock_mode (globals s) = false /\
         (exists q, pipe (globals s) = Some q) /\
         mock_delay (globals s) = 0%float /\
         mock_image_b64 (globals s) = "").
  { revert H. destruct (arg_mock args).
    - unfold bind at 1. unfold assign at 1. cbn beta iota. intros H.
      destruct (init_mock_Return env _ H) as (png & Hpng & Hg & Hf & Hd).
      cbn [globals files dirs] in Hg, Hf, Hd.
      rewrite Hg, Hf, Hd, Hg1, Hd1, Hf1.
      repeat (split; [reflexivity |]). exists png. split; [exact Hpng |].
      reflexivity.
    - intros H.
      destruct (load_model_cases host (arg_model args) s1)
        as [(e & _ & E) | (p & s2 & _ & Hf & Hd & Hc)].
      + rewrite E in H. discriminate H.
      + destruct Hc as [(e & E & _) | [(E & _ & Hg) | (q & E & _ & Hg)]];
          rewrite E in H; try discriminate H; injection H as <-;
          rewrite Hg, Hf, Hd, Hf1, Hd1, Hg1;
          repeat (split; [reflexivity |]);
          (split; [eexists; reflexivity |]); split; reflexivity. }
  destruct Hrest as (Hd & Hrest).
  split; [exists created; split; [reflexivity | exact Hd] | exact Hrest].
Qed.

(** X11: when the startup block returns, so that the server starts,
    [--self-test] was not given, the global [output_dir] is the
    directory of the command line, [os.makedirs] has been called for it,
    once, and has returned (creating the missing parents and the leaf,
    or nothing when the directory existed), and no image has been
    saved. *)
Theorem startup_output_dir :
  forall host env args s,
    main host env args boot = (Return tt, s) ->
    arg_self_test args = false /\
    output_dir (globals s) = arg_output_dir args /\
    (exists created,
       os_makedirs host (arg_output_dir args) = Return created /\
       dirs s = created) /\
    files s = [].
Proof.
  intros host env args s H.
  destruct (main_started host env args H) as (Ht & Hm & Ho & Hf & _).
  repeat split; assumption.
Qed.

Lemma startup_output_dir_witness :
  arg_self_test args_normal = false /\
  output_dir (globals (snd (main host_fresh env_ok args_normal boot))) =
  "output/zimage" /\
  (exists created,
     os_makedirs host_fresh "output/zimage" = Return created /\
     dirs (snd (main host_fresh env_ok args_normal boot)) = created) /\
  files (snd (main host_fresh env_ok args_normal boot)) = [].
Proof.
  exact (@startup_output_dir host_fresh env_ok args_normal
           (snd (main host_fresh env_ok args_normal boot)) eq_refl).
Defined.

(** X12: a [--mock] startup that reaches the server has loaded no
    model: the handle is absent, the mock flag is set, the delay is the
    one of the command line and the cached image is the base64 PNG of
    the 64x64 placeholder. *)
Theorem mock_startup_state :
  forall host env args s,
    main host env args boot = (Return tt, s) ->
    arg_mock args = true ->
    mock_mode (globals s) = true /\
    pipe (globals s) = None /\
    mock_delay (globals s) = arg_mock_delay args /\
    exists png,
      save_png env (PILImage (Image_new "RGB" (64, 64) (100, 149, 237))) =
      Return png /\
      mock_image_b64 (globals s) = base64.b64encode png.
Proof.
  intros host env args s H Hm.
  destruct (main_started host env args H) as (_ & _ & _ & _ & Hs).
  rewrite Hm in Hs. exact Hs.
Qed.

Lemma mock_startup_state_witness :
  mock_mode (globals mock_server) = true /\
  pipe (globals mock_server) = None /\
  mock_delay (globals mock_server) = 0.5%float /\
  exists png,
    save_png env_ok (PILImage (Image_new "RGB" (64, 64) (100, 149, 237))) =
    Return png /\
    mock_image_b64 (globals mock_server) = base64.b64encode png.
Proof.
  exact (@mock_startup_state host_cuda env_ok args_mock mock_server
           eq_refl eq_refl).
Defined.

(** X13: a startup without [--mock] that reaches the server has the
    handle present and leaves the mock globals at their initial values:
    the mock flag is off, the cached image is empty, and [--mock-delay]
    is ignored (the delay stays 0.0). *)
Theorem normal_startup_state :
  forall host env args s,
    main host env args boot = (Return tt, s) ->
    arg_mock args = false ->
    (exists q, pipe (globals s) = Some q) /\
    mock_mode (globals s) = false /\
    mock_delay (globals s) = 0%float /\
    mock_image_b64 (globals s) = "".
Proof.
  intros host env args s H Hm.
  destruct (main_started host env args H) as (_ & _ & _ & _ & Hs).
  rewrite Hm in Hs. destruct Hs as (A & B & C & D). repeat split; assumption.
Qed.

Lemma normal_startup_state_witness :
  (exists q, pipe (globals real_server) = Some q) /\
  mock_mode (globals real_server) = false /\
  mock_delay (globals real_server) = 0%float /\
  mock_image_b64 (globals real_server) = "".
Proof.
  exact (@normal_startup_state host_cuda env_ok args_normal real_server
           eq_refl eq_refl).
Defined.

(** When [generate] raises a 503. *)
Lemma generate_503 env req s d :
  fst (generate env req s) = Raise (HTTPException 503 d) <->
  mock_mode (globals s) = false /\ pipe (globals s) = None /\
  d = "Model not loaded".
Proof.
  split.
  - intros H. destruct (mock_mode (globals s)) eqn:Hm.
    { destruct (generate_mock_outcome env req s Hm)
        as [(resp & E) | (cls & msg & _ & E)];
        rewrite E in H; discriminate H. }
    destruct (pipe (globals s)) as [p |] eqn:Hp.
    + exfalso.
      destruct (first_failure env req (output_dir (globals s)) p)
        as [e |] eqn:Hf.
      * rewrite (generate_failure env req s Hm Hp Hf) in H.
        destruct (isinstance_Exception e) eqn:He; cbn [fst] in H.
        { discriminate H. }
        { injection H as ->. discriminate He. }
      * destruct (generate_success env req s Hm Hp Hf)
          as (img & rest & png & _ & _ & Hok & _).
        rewrite Hok in H. discriminate H.
    + rewrite (generate_unloaded env req s Hm Hp) in H.
      injection H as <-. repeat split.
  - intros (Hm & Hp & ->). now rewrite (generate_unloaded env req s Hm Hp).
Qed.

(** X14: the handler raises a 503 exactly when the process is outside
    mock mode with the handle absent, and the detail is then "Model not
    loaded"; nothing the pipeline, the encoder or the disk does can turn
    into a 503. *)
Theorem service_unavailable_iff :
  forall env req s d,
    fst (generate env req s) = Raise (HTTPException 503 d) <->
    mock_mode (globals s) = false /\ pipe (globals s) = None /\
    d = "Model not loaded".
Proof. exact generate_503. Qed.

Lemma service_unavailable_iff_witness :
  fst (generate env_ok req_default boot) =
  Raise (HTTPException 503 "Model not loaded").
Proof.
  exact (proj2 (service_unavailable_iff env_ok req_default boot
                  "Model not loaded")
               (conj eq_refl (conj eq_refl eq_refl))).
Defined.

(** X15: a server that has started never answers 503: after a startup
    block that returned, whatever requests were served before, no POST
    /generate raises the service-unavailable error. *)
Theorem started_server_never_503 :
  forall host env args s,
    main host env args boot = (Return tt, s) ->
    forall rs env' req d,
      fst (generate env' req (snd (serve rs s))) <>
      Raise (HTTPException 503 d).
Proof.
  intros host env args s H rs env' req d Hr.
  apply generate_503 in Hr. destruct Hr as (Hm & Hp & _).
  destruct (serve_readonly rs s) as [Hg _]. rewrite Hg in Hm, Hp.
  destruct (main_started host env args H) as (_ & _ & _ & _ & Hs).
  destruct (arg_mock args).
  - destruct Hs as (Hm' & _). rewrite Hm in Hm'. discriminate Hm'.
  - destruct Hs as (_ & (q & Hq) & _). rewrite Hp in Hq. discriminate Hq.
Qed.

Lemma started_server_never_503_witness :
  fst (generate env_oom req_small
         (snd (serve [GET_health; POST_generate env_ok req_default]
                 mock_server))) <>
  Raise (HTTPException 503 "Model not loaded").
Proof.
  exact (@started_server_never_503 host_cuda env_ok args_mock mock_server
           eq_refl [GET_health; POST_generate env_ok req_default]
           env_oom req_small "Model not loaded").
Defined.

(** X16: the output directory is created before anything is loaded:
    when [os.makedirs] raises, the startup block raises the same
    exception with [output_dir] already assigned and nothing else done:
    no model load, no mock setup, no log line. *)
Theorem makedirs_failure_aborts_startup :
  forall host env args s e,
    os_makedirs host (arg_output_dir args) = Raise e ->
    main host env args s =
    (Raise e, snd (assign (set_output_dir (arg_output_dir args)) s)).
Proof.
  intros host env args s e He. rewrite main_unfold. cbv zeta.
  rewrite He. reflexivity.
Qed.

Lemma makedirs_failure_aborts_startup_witness :
  main host_no_mkdir env_ok args_normal boot =
  (Raise (PyException "PermissionError" "[Errno 13] Permission denied"),
   snd (assign (set_output_dir "output/zimage") boot)).
Proof.
  exact (@makedirs_failure_aborts_startup host_no_mkdir env_ok args_normal
           boot _ eq_refl).
Defined.

(** The answer of [health] depends on the globals alone. *)
Lemma health_of_globals s s' :
  globals s = globals s' -> fst (health s) = fst (health s').
Proof. intros H. unfold health, bind, gets, ret. cbn. now rewrite H. Qed.

(** The replies to the health requests of a run. *)
Lemma serve_health_replies rs :
  forall s o,
    In (health_reply o) (fst (serve rs s)) -> o = fst (health s).
Proof.
  induction rs as [| r rs IH]; intros s o Hin; [contradiction Hin |].
  cbn [serve] in Hin.
  assert (Hr : globals (snd (route r s)) = globals s).
  { pose proof (serve_readonly [r] s) as [Hg _]. cbn [serve] in Hg.
    destruct (route r s) as [a s1]. exact Hg. }
  destruct (route r s) as [a s1] eqn:Er. cbn [snd] in Hr.
  destruct (serve rs s1) as [l s2] eqn:Es. cbn [fst] in Hin.
  destruct Hin as [Ha | Hin].
  - subst a. destruct r as [| env req]; unfold route in Er.
    + destruct (health s) as [o' s'] eqn:Eh. injection Er as <- _.
      reflexivity.
    + destruct (generate env req s). discriminate Er.
  - rewrite (health_of_globals s s1) by (symmetry; exact Hr).
    apply IH. rewrite Es. exact Hin.
Qed.

(** X17: while the server runs, every GET /health gets the same answer:
    the replies to the health requests of any sequence of requests are
    all the reply the first one would get. *)
Theorem health_replies_constant :
  forall rs s o,
    In (health_reply o) (fst (serve rs s)) -> o = fst (health s).
Proof. intros rs s o H. exact (serve_health_replies rs s o H). Qed.

Lemma health_replies_constant_witness :
  Return [("status", JStr "ok"); ("model_loaded", JBool true);
          ("mock", JBool false)] =
  fst (health real_server).
Proof.
  apply (@health_replies_constant
           [POST_generate env_ok req_small; GET_health] real_server).
  vm_compute. right. left. reflexivity.
Defined.

(** X27: for the whole life of a started server, GET /health reports
    [mock] as the [--mock] flag and [model_loaded] as its negation: a
    mock server never reports a loaded model, a real one always does. *)
Theorem started_server_health :
  forall host env args s,
    main host env args boot = (Return tt, s) ->
    forall rs o,
      In (health_reply o) (fst (serve rs s)) ->
      o = Return [("status", JStr "ok");
                  ("model_loaded", JBool (negb (arg_mock args)));
                  ("mock", JBool (arg_mock args))].
Proof.
  intros host env args s H rs o Hin.
  rewrite (serve_health_replies rs s o Hin).
  destruct (main_started host env args H) as (_ & _ & _ & _ & Hs).
  unfold health, bind, gets, ret. cbn [fst].
  destruct (arg_mock args).
  - destruct Hs as (Hm & Hp & _). rewrite Hm, Hp. reflexivity.
  - destruct Hs as (Hm & (q & Hq) & _). rewrite Hm, Hq. reflexivity.
Qed.

Lemma started_server_health_witness :
  Return [("status", JStr "ok"); ("model_loaded", JBool false);
          ("mock", JBool true)] =
  Return [("status", JStr "ok");
          ("model_loaded", JBool (negb (arg_mock args_mock)));
          ("mock", JBool (arg_mock args_mock))].
Proof.
  apply (@started_server_health host_cuda env_ok args_mock mock_server
           eq_refl [POST_generate env_ok req_small; GET_health]).
  vm_compute. right. left. reflexivity.
Defined.

(* ================================================================= *)
(** ** Generation, continued *)

(** X18: a pipeline that returns an empty list of images is a
    generation failure like any other: [result.images[0]] raises
    [IndexError], which the handler logs and turns into a 500 with
    detail "list index out of range". *)
Theorem no_image_is_500 :
  forall env req s p,
    mock_mode (globals s) = false ->
    pipe (globals s) = Some p ->
    call_pipe env p (prompt req) (width req) (height req) (steps req)
      (guidance_scale req) None = Return [] ->
    generate env req s =
    (Raise (HTTPException 500 "list index out of range"),
     snd (logger_exception "Generation failed" s)).
Proof.
  intros env req s p Hm Hp Hc.
  rewrite (@generate_failure env req s p
             (PyException "IndexError" "list index out of range") Hm Hp).
  - reflexivity.
  - unfold first_failure. rewrite Hc. reflexivity.
Qed.

Lemma no_image_is_500_witness :
  generate env_no_images req_small real_server =
  (Raise (HTTPException 500 "list index out of range"),
   snd (logger_exception "Generation failed" real_server)).
Proof.
  exact (@no_image_is_500 env_no_images req_small real_server
           {| model_id := "Tongyi-MAI/Z-Image"; device := "cuda" |}
           eq_refl eq_refl eq_refl).
Defined.

(** X19: the response carries the first image only: when the pipeline
    returns [img :: rest] and PIL encodes [img] as [png], a successful
    response has [image] equal to the base64 text of [png], whatever
    [rest] holds. *)
Theorem response_is_first_image :
  forall env req s p img rest png resp,
    mock_mode (globals s) = false ->
    pipe (globals s) = Some p ->
    call_pipe env p (prompt req) (width req) (height req) (steps req)
      (guidance_scale req) None = Return (img :: rest) ->
    save_png env img = Return png ->
    fst (generate env req s) = Return resp ->
    image resp = base64.b64encode png.
Proof.
  intros env req s p img rest png resp Hm Hp Hc Hpng Hr.
  destruct (generate_Return_real env req s Hm Hr) as (p' & Hp' & Hf).
  rewrite Hp in Hp'. injection Hp' as <-.
  destruct (generate_success env req s Hm Hp Hf)
    as (img' & rest' & png' & Hc' & Hpng' & Hok & _).
  rewrite Hc in Hc'. injection Hc' as <- <-.
  rewrite Hpng in Hpng'. injection Hpng' as <-.
  rewrite Hok in Hr. injection Hr as <-. reflexivity.
Qed.

Lemma response_is_first_image_witness :
  image {| image := "iVBORw0KGgo="; mime_type := "image/png";
           file_path := "output/zimage/20261103_123456_8x4.png" |} =
  base64.b64encode png_signature.
Proof.
  exact (@response_is_first_image env_two_images req_small real_server
           {| model_id := "Tongyi-MAI/Z-Image"; device := "cuda" |}
           (PILImage (Image_new "RGB" (8, 4) (0, 0, 255)))
           [OtherObject "tensor"] png_signature _
           eq_refl eq_refl eq_refl eq_refl eq_refl).
Defined.

(** X20: a request writes at most one file, and only when it succeeds:
    either the written files are unchanged, or the handler returned a
    response and the one new file is the image saved under the
    response's [file_path]. *)
Theorem file_written_only_on_success :
  forall env req s,
    files (snd (generate env req s)) = files s \/
    exists img resp,
      fst (generate env req s) = Return resp /\
      files (snd (generate env req s)) = (file_path resp, img) :: files s.
Proof.
  intros env req s.
  destruct (mock_mode (globals s)) eqn:Hm.
  { left. now apply generate_mock_files. }
  destruct (pipe (globals s)) as [p |] eqn:Hp.
  - destruct (first_failure env req (output_dir (globals s)) p)
      as [e |] eqn:Hf.
    + left. rewrite (generate_failure env req s Hm Hp Hf).
      destruct (isinstance_Exception e); reflexivity.
    + destruct (generate_success env req s Hm Hp Hf)
        as (img & rest & png & _ & _ & Hok & Hfiles).
      destruct (truthy (output_dir (globals s))).
      * right. exists img. eexists. split; [exact Hok | exact Hfiles].
      * left. exact Hfiles.
  - left. now rewrite (generate_unloaded env req s Hm Hp).
Qed.

(** X21: the name of the saved file depends on the output directory,
    the clock to the second and the requested size only: two successful
    requests of the same size that are served within the same second
    are saved under the same path, whatever their prompts. *)
Theorem same_second_same_path :
  forall env1 env2 req1 req2 s1 s2 r1 r2,
    mock_mode (globals s1) = false ->
    mock_mode (globals s2) = false ->
    output_dir (globals s1) = output_dir (globals s2) ->
    now env1 = now env2 ->
    width req1 = width req2 ->
    height req1 = height req2 ->
    fst (generate env1 req1 s1) = Return r1 ->
    fst (generate env2 req2 s2) = Return r2 ->
    file_path r1 = file_path r2.
Proof.
  intros env1 env2 req1 req2 s1 s2 r1 r2 Hm1 Hm2 Hod Hnow Hw Hh Hr1 Hr2.
  destruct (generate_Return_real env1 req1 s1 Hm1 Hr1) as (p1 & Hp1 & Hf1).
  destruct (generate_Return_real env2 req2 s2 Hm2 Hr2) as (p2 & Hp2 & Hf2).
  destruct (generate_success env1 req1 s1 Hm1 Hp1 Hf1)
    as (i1 & t1 & g1 & _ & _ & Hok1 & _).
  destruct (generate_success env2 req2 s2 Hm2 Hp2 Hf2)
    as (i2 & t2 & g2 & _ & _ & Hok2 & _).
  rewrite Hok1 in Hr1. rewrite Hok2 in Hr2.
  injection Hr1 as <-. injection Hr2 as <-. cbn [file_path].
  unfold image_filename. now rewrite Hod, Hnow, Hw, Hh.
Qed.

Lemma same_second_same_path_witness :
  file_path {| image := "iVBORw0KGgo="; mime_type := "image/png";
               file_path := "output/zimage/20261103_123456_8x4.png" |} =
  file_path {| image := "iVBORw0KGgo="; mime_type := "image/png";
               file_path := "output/zimage/20261103_123456_8x4.png" |}.
Proof.
  exact (@same_second_same_path env_ok env_two_images req_small
           req_other_prompt real_server real_server _ _
           eq_refl eq_refl eq_refl eq_refl eq_refl eq_refl eq_refl eq_refl).
Defined.

Lemma digit_not_sep c : is_digit c = true -> Ascii.eqb c posixpath.sep = false.
Proof.
  intros H. destruct (Ascii.eqb_spec c posixpath.sep) as [-> | Hn];
    [vm_compute in H; discriminate H | reflexivity].
Qed.

(** X22: the image is saved directly inside the output directory: for a
    valid clock, the returned path is the output directory, then a
    slash unless the directory already ends with one, then the file
    name. *)
Theorem saved_path_inside_output_dir :
  forall env req s resp,
    mock_mode (globals s) = false ->
    output_dir (globals s) <> "" ->
    datetime.valid (now env) = true ->
    fst (generate env req s) = Return resp ->
    file_path resp =
    output_dir (globals s) ++
    (if posixpath.endswith_sep (output_dir (globals s)) then "" else "/") ++
    image_filename (datetime.strftime (now env)) req.
Proof.
  intros env req s resp Hm Hod Hv Hr.
  destruct (generate_Return_real env req s Hm Hr) as (p & Hp & Hf).
  destruct (generate_success env req s Hm Hp Hf)
    as (img & rest & png & _ & _ & Hok & _).
  rewrite Hok in Hr. injection Hr as <-. cbn [file_path].
  destruct (output_dir (globals s)) as [| c od] eqn:Eod;
    [now contradiction Hod |].
  cbn [truthy]. unfold posixpath.join.
  assert (Hs : posixpath.startswith_sep
                 (image_filename (datetime.strftime (now env)) req) = false).
  { unfold datetime.valid in Hv.
    repeat (apply andb_prop in Hv; destruct Hv as [Hv ?]).
    repeat match goal with
           | E : (_ <=? _)%N = true |- _ => apply N.leb_le in E
           end.
    destruct (@pad4_digits (datetime.year (now env)))
      as (y1 & y2 & y3 & y4 & Ey & Dy); [lia |].
    unfold image_filename, datetime.strftime. rewrite Ey.
    cbn [append posixpath.startswith_sep].
    cbn [forallb] in Dy. apply andb_prop in Dy. destruct Dy as [Dy _].
    now apply digit_not_sep. }
  rewrite Hs. cbn [String.length Nat.eqb orb].
  destruct (posixpath.endswith_sep (String c od)); reflexivity.
Qed.

Lemma saved_path_inside_output_dir_witness :
  file_path {| image := "iVBORw0KGgo="; mime_type := "image/png";
               file_path := "output/zimage/20261103_123456_8x4.png" |} =
  "output/zimage" ++ "/" ++ "20261103_123456_8x4.png".
Proof.
  exact (@saved_path_inside_output_dir env_ok req_small real_server _
           eq_refl ltac:(discriminate) eq_refl eq_refl).
Defined.

(** X23: the delay of mock mode.  When [mock_delay] is not greater
    than 0 (zero, negative or NaN) the handler returns the placeholder
    at once and changes nothing.  When it is greater than 0 and
    [time.sleep] returns, the handler has slept once for [mock_delay],
    logged nothing, and returns the placeholder.  When [time.sleep]
    raises (a delay too large for the clock), the exception leaves the
    handler as it is, the call being outside the [try], and nothing is
    slept or logged. *)
Theorem mock_sleeps_when_delay_positive :
  forall env req s,
    mock_mode (globals s) = true ->
    let d := mock_delay (globals s) in
    let placeholder :=
      {| image := mock_image_b64 (globals s); mime_type := "image/png";
         file_path := "" |} in
    (PrimFloat.ltb 0%float d = false ->
     generate env req s = (Return placeholder, s)) /\
    (PrimFloat.ltb 0%float d = true ->
     sleep_error env d = None ->
     fst (generate env req s) = Return placeholder /\
     sleeps (snd (generate env req s)) = d :: sleeps s /\
     log (snd (generate env req s)) = log s) /\
    (PrimFloat.ltb 0%float d = true ->
     forall cls msg,
       sleep_error env d = Some (cls, msg) ->
       generate env req s = (Raise (PyException cls msg), s)).
Proof.
  intros env req s Hm d placeholder. subst d placeholder.
  rewrite (generate_mock env req s Hm).
  split; [| split].
  - intros Hd. rewrite Hd. reflexivity.
  - intros Hd Hs. rewrite Hd, Hs. unfold time_sleep. rewrite Hs.
    repeat split; reflexivity.
  - intros Hd cls msg Hs. rewrite Hd, Hs. reflexivity.
Qed.

Lemma mock_sleeps_when_delay_positive_witness :
  (fst (generate env_ok req_small mock_server) =
   Return {| image := "iVBORw0KGgo="; mime_type := "image/png";
             file_path := "" |} /\
   sleeps (snd (generate env_ok req_small mock_server)) = [0.5%float] /\
   log (snd (generate env_ok req_small mock_server)) = log mock_server) /\
  generate env_ok req_small mock_server_inf =
  (Raise (PyException "OverflowError"
            "timestamp too large to convert to C _PyTime_t"),
   mock_server_inf).
Proof.
  split.
  - exact (proj1 (proj2 (@mock_sleeps_when_delay_positive env_ok req_small
                           mock_server eq_refl)) eq_refl eq_refl).
  - exact (proj2 (proj2 (@mock_sleeps_when_delay_positive env_ok req_small
                           mock_server_inf eq_refl)) eq_refl _ _ eq_refl).
Defined.

(** X24: what a successful generation logs: first "Image saved: " with
    the returned path, when an output directory is configured, then
    "Generated WxH in Ts (N steps)" with the requested size and steps;
    both at level INFO and nothing else. *)
Theorem success_log :
  forall env req s resp,
    mock_mode (globals s) = false ->
    fst (generate env req s) = Return resp ->
    log (snd (generate env req s)) =
    {| levelname := "INFO";
       message := "Generated " ++ str_int (width req) ++ "x" ++
                  str_int (height req) ++ " in " ++
                  format_1f env (PrimFloat.sub (time_time env 1)
                                               (time_time env 0)) ++
                  "s (" ++ str_int (steps req) ++ " steps)" |} ::
    (if truthy (output_dir (globals s))
     then [{| levelname := "INFO";
              message := "Image saved: " ++ file_path resp |}]
     else []) ++ log s.
Proof.
  intros env req s resp Hm Hr.
  destruct (generate_Return_real env req s Hm Hr) as (p & Hp & Hf).
  revert Hr. unfold first_failure in Hf. run_generate Hm Hp.
  destruct (call_pipe env p (prompt req) (width req) (height req)
              (steps req) (guidance_scale req) None) as [[| img rest] | e0];
    try discriminate Hf.
  destruct (save_png env img) as [png | e1]; [| discriminate Hf].
  destruct (truthy (output_dir (globals s))).
  - destruct (save_file env img _) as [[] | e2]; [| discriminate Hf].
    cbn. intros Hr. injection Hr as <-. reflexivity.
  - cbn. intros Hr. reflexivity.
Qed.

Lemma success_log_witness :
  log (snd (generate env_ok req_small real_server)) =
  {| levelname := "INFO"; message := "Generated 8x4 in 1.0s (2 steps)" |} ::
  {| levelname := "INFO";
     message := "Image saved: output/zimage/20261103_123456_8x4.png" |} ::
  log real_server.
Proof.
  exact (@success_log env_ok req_small real_server _ eq_refl eq_refl).
Defined.

(** X25: [init_mock] touches the two mock globals only: whatever its
    outcome, the handle, the delay, the output directory and the written
    files are as before (the placeholder is encoded in memory, not
    saved).  When the import of PIL fails, it raises with nothing
    assigned, so that [mock_mode] keeps its value; once the import has
    succeeded, [mock_mode] is true afterwards, even when encoding the
    placeholder then fails. *)
Theorem init_mock_frame :
  forall env s,
    let s' := snd (init_mock env s) in
    pipe (globals s') = pipe (globals s) /\
    mock_delay (globals s') = mock_delay (globals s) /\
    output_dir (globals s') = output_dir (globals s) /\
    files s' = files s /\
    (forall e, import_PIL env = Raise e -> init_mock env s = (Raise e, s)) /\
    (import_PIL env = Return tt -> mock_mode (globals s') = true).
Proof.
  intros env s. unfold init_mock. cbv zeta.
  remember (PILImage (Image_new "RGB" (64, 64) (100, 149, 237))) as img.
  unfold logger_info, bind, assign, extern, emit. cbn beta iota.
  destruct (import_PIL env) as [[] | e0]; cbn beta iota.
  - destruct (save_png env img) as [png | e1]; cbn;
      repeat (split; [reflexivity |]);
      (split; [intros e2 H; discriminate H | reflexivity]).
  - cbn. repeat (split; [reflexivity |]).
    split; [intros e2 H; injection H as <-; reflexivity |].
    intros H. discriminate H.
Qed.

Lemma init_mock_frame_witness :
  init_mock env_no_pil boot =
  (Raise (PyException "ModuleNotFoundError" "No module named 'PIL'"), boot) /\
  mock_mode (globals (snd (init_mock env_oom boot))) = true.
Proof.
  split.
  - exact (proj1 (proj2 (proj2 (proj2 (proj2
             (@init_mock_frame env_no_pil boot))))) _ eq_refl).
  - exact (proj2 (proj2 (proj2 (proj2 (proj2
             (@init_mock_frame env_oom boot))))) eq_refl).
Defined.

(* ================================================================= *)
(** ** Base64 text *)

Lemma digit_in_alphabet n : In (base64.digit n) base64.alphabet.
Proof.
  unfold base64.digit. apply nth_In.
  change 63%N with (N.ones 6). rewrite N.land_ones.
  assert (H : (n mod 2 ^ 6 < 64)%N) by (apply N.mod_lt; discriminate).
  change (List.length base64.alphabet) with 64%nat. lia.
Qed.

(** Induction over a list three elements at a time. *)
Lemma list_ind3 {A} (P : list A -> Prop) :
  P [] -> (forall a, P [a]) -> (forall a b, P [a; b]) ->
  (forall a b c l, P l -> P (a :: b :: c :: l)) ->
  forall l, P l.
Proof.
  intros H0 H1 H2 H3.
  assert (H : forall l, P l /\ (forall a, P (a :: l)) /\
                        (forall a b, P (a :: b :: l))).
  { induction l as [| x l (IH0 & IH1 & IH2)].
    - repeat split; auto.
    - repeat split; auto. }
  intros l. apply H.
Qed.

(** X26: the image text of a response is well-formed base64: it has
    four characters for every three bytes, rounded up, and every
    character is one of the 64 of the alphabet or the padding sign. *)
Theorem b64encode_well_formed :
  forall bs,
    String.length (base64.b64encode bs) =
    (4 * ((List.length bs + 2) / 3))%nat /\
    Forall (fun c => In c base64.alphabet \/ c = "="%char)
      (list_ascii_of_string (base64.b64encode bs)).
Proof.
  induction bs as [| a | a b | a b c l [IHl IHf]] using list_ind3.
  - split; [reflexivity | constructor].
  - split; [reflexivity |].
    cbn [base64.b64encode list_ascii_of_string].
    repeat (constructor;
            [first [left; apply digit_in_alphabet | right; reflexivity] |]).
    constructor.
  - split; [reflexivity |].
    cbn [base64.b64encode list_ascii_of_string].
    repeat (constructor;
            [first [left; apply digit_in_alphabet | right; reflexivity] |]).
    constructor.
  - split.
    + cbn [base64.b64encode String.length List.length]. rewrite IHl.
      replace (S (S (S (List.length l))) + 2)%nat
        with (List.length l + 2 + 1 * 3)%nat by lia.
      rewrite Nat.div_add by discriminate. lia.
    + cbn [base64.b64encode list_ascii_of_string].
      repeat (constructor; [left; apply digit_in_alphabet |]).
      exact IHf.
Qed.
